(** * The pulsar survey server: request handlers of [app.py]

    [app.py] is glue between a web framework and four collaborators: the
    coordinate library, the pulsar catalog and its matcher, the
    electron-density models and the table renderer.  The three handlers
    [Search], [API] and [Compute] are embedded here as programs of a small
    monad that threads the record of calls made to the collaborators and
    propagates Python exceptions.  Python floats are IEEE binary64 numbers,
    [PrimFloat.float]. *)

From Stdlib Require Import ZArith List String Ascii Bool Lia Floats.
From Stdlib Require Import DecimalString DecimalPos DecimalN.
Import ListNotations.
Open Scope string_scope.

(** ** Python exceptions and the handler monad *)

Module Py.

Inductive exn_kind :=
| ValueError
| TypeError
| UnboundLocalError
| UnitConversionError
| ValidationError
| ModelError.

Record exn := mkExn { kind : exn_kind; message : string }.

Inductive outcome (A : Type) :=
| Return (a : A)
| Raise (e : exn).
Arguments Return {A} a.
Arguments Raise {A} e.

Definition exn_kind_eqb (a b : exn_kind) : bool :=
  match a, b with
  | ValueError, ValueError | TypeError, TypeError
  | UnboundLocalError, UnboundLocalError
  | UnitConversionError, UnitConversionError
  | ValidationError, ValidationError | ModelError, ModelError => true
  | _, _ => false
  end.

(** [isinstance(e, base)] by the kind of [e]: a kind is an instance of
    itself, and astropy's [UnitConversionError] and wtforms'
    [ValidationError] are subclasses of [ValueError]. *)
Definition is_a (k base : exn_kind) : bool :=
  exn_kind_eqb k base
  || match base, k with
     | ValueError, UnitConversionError | ValueError, ValidationError => true
     | _, _ => false
     end.

(** A computation reads the calls made so far and returns its outcome with
    the calls made since appended. *)
Definition M (Ev A : Type) : Type := list Ev -> outcome A * list Ev.

Definition ret {Ev A} (a : A) : M Ev A := fun log => (Return a, log).

Definition raise {Ev A} (k : exn_kind) (m : string) : M Ev A :=
  fun log => (Raise (mkExn k m), log).

Definition bind {Ev A B} (m : M Ev A) (f : A -> M Ev B) : M Ev B :=
  fun log =>
    match m log with
    | (Return a, log') => f a log'
    | (Raise e, log') => (Raise e, log')
    end.

(** [lift o] is a pure call whose outcome may be an exception. *)
Definition lift {Ev A} (o : outcome A) : M Ev A := fun log => (o, log).

(** [emit ev o]: a call to a collaborator, recorded, with outcome [o]. *)
Definition emit {Ev A} (ev : Ev) (o : outcome A) : M Ev A :=
  fun log => (o, (log ++ [ev])%list).

(** [try: m except k as e: h e]: an exception whose kind is [k] or a
    subclass of [k] is handled. *)
Definition try_except {Ev A} (m : M Ev A) (k : exn_kind) (h : exn -> M Ev A)
  : M Ev A :=
  fun log =>
    match m log with
    | (Return a, log') => (Return a, log')
    | (Raise e, log') =>
        if is_a (kind e) k then h e log' else (Raise e, log')
    end.

Definition run {Ev A} (m : M Ev A) : outcome A * list Ev := m [].

End Py.
Import Py.

Declare Scope py_scope.
Delimit Scope py_scope with py.
Notation "x <- m ;; k" := (bind m (fun x => k))
  (at level 61, m at next level, right associativity) : py_scope.
Notation "' p <- m ;; k" := (bind m (fun p => k))
  (at level 61, p pattern, m at next level, right associativity) : py_scope.
Open Scope py_scope.

(** ** Units and quantities ([astropy.units]) *)

Module Units.

(** A unit is a product of powers of the three base units the handlers
    name: degree, parsec and centimetre. *)
Record unit_ := mkUnit { deg_pow : Z; pc_pow : Z; cm_pow : Z }.

Definition deg : unit_ := mkUnit 1 0 0.
Definition pc : unit_ := mkUnit 0 1 0.
Definition pc_cm3 : unit_ := mkUnit 0 1 (-3).

Definition unit_mul (u v : unit_) : unit_ :=
  mkUnit (deg_pow u + deg_pow v) (pc_pow u + pc_pow v) (cm_pow u + cm_pow v).

Definition unit_eqb (u v : unit_) : bool :=
  (deg_pow u =? deg_pow v)%Z && (pc_pow u =? pc_pow v)%Z
  && (cm_pow u =? cm_pow v)%Z.

Record Quantity := mkQuantity { value : float; unit : unit_ }.

(** A Python variable holding either a bare float or a quantity. *)
Inductive number :=
| Num (f : float)
| Qty (q : Quantity).

(** [x * u] for a unit [u]: a bare number acquires the unit, a quantity has
    its unit multiplied by [u]. *)
Definition times_unit (x : number) (u : unit_) : Quantity :=
  match x with
  | Num f => mkQuantity f u
  | Qty q => mkQuantity (value q) (unit_mul (unit q) u)
  end.

(** [q.to(u)]: only the identity conversion is needed by the handlers. *)
Definition to_unit (q : Quantity) (u : unit_) : outcome Quantity :=
  if unit_eqb (unit q) u then Return q
  else Raise (mkExn UnitConversionError "units are not convertible").

End Units.
Import Units.

(** A Python number that is an [int] or a [float]. *)
Inductive pynum :=
| PyInt (z : Z)
| PyFloat (f : float).

Definition float_of_Z (z : Z) : float :=
  SF2Prim (binary_normalize prec emax z 0 false).

Definition float_of_pynum (n : pynum) : float :=
  match n with
  | PyInt z => float_of_Z z
  | PyFloat f => f
  end.

(** [pandas.isna(x)] on a float. *)
Definition float_is_nan (x : float) : bool :=
  match Prim2SF x with
  | S754_nan => true
  | _ => false
  end.

(** ** The forms *)

(** Modelled from the spec: the search form of [forms.py], which is not
    among the sources: a free-text coordinate string, a radius, an optional
    DM and DM tolerance, and the "as API" and "clear" buttons.  A numeric
    field holds a float, or [None] when it was left empty. *)
Module SearchForm.
Record t := mk {
  coordinates : string;
  radius : option float;
  dm : option float;
  dmtol : option float;
  api : bool;
  clear : bool
}.
End SearchForm.

(** Modelled from the spec: the compute form of [forms.py]: a coordinate
    string read as equatorial or galactic, a choice of solving from a DM or
    from a distance, the input value and a named electron-density model out
    of the selector's (value, label) choices. *)
Module DMForm.
Record t := mk {
  coordinates : string;
  lb_or_radec_selector : string;
  d_or_dm_selector : string;
  d_or_dm : option float;
  model_selector : string;
  model_choices : list (string * string);
  clear : bool
}.
End DMForm.

(** ** The catalog *)

(** Modelled from the spec: a catalog entry of the pulsar table (the
    external catalog library): name, position, dispersion measure (absent
    for some entries), period, distance estimate and source survey. *)
Record CatalogEntry (C : Type) := mkEntry {
  PSR : string;
  position : C;
  DM : option float;
  P : float;
  Distance : float;
  survey : string
}.
Arguments mkEntry {C}.
Arguments PSR {C}.
Arguments position {C}.
Arguments DM {C}.
Arguments P {C}.
Arguments Distance {C}.
Arguments survey {C}.

(** ** The collaborators

    Everything the handlers call outside of [app.py]. *)

Class Externals := {
  (** Python: [float(s)] on text ([None] stands for its [ValueError]) and
      [str(x)] on a float. *)
  float_of_str : string -> option float;
  str_of_float : float -> string;
  (** astropy: sky coordinates. *)
  SkyCoord : Type;
  SkyCoord_new : Quantity -> Quantity -> outcome SkyCoord;
  ra_deg : SkyCoord -> float;
  dec_deg : SkyCoord -> float;
  galactic_l : SkyCoord -> Quantity;
  galactic_b : SkyCoord -> Quantity;
  separation : SkyCoord -> SkyCoord -> float;
  to_string_hmsdms : SkyCoord -> string;
  ra_to_string_decimal : SkyCoord -> string;
  dec_to_string_decimal : SkyCoord -> string;
  l_to_string_decimal : SkyCoord -> string;
  b_to_string_decimal : SkyCoord -> string;
  (** forms.py: validation and coordinate parsing. *)
  SearchForm_validate_on_submit : SearchForm.t -> bool;
  DMForm_validate_on_submit : DMForm.t -> bool;
  parse_equcoord_and_validate : string -> outcome SkyCoord;
  parse_galcoord_and_validate : string -> outcome SkyCoord;
  (** pulsarsurveyscraper: the survey table (name, url) in dictionary order
      and the rows of the pulsar table. *)
  Surveys : list (string * string);
  pulsar_table : list (CatalogEntry SkyCoord);
  (** pygedm: each conversion returns a pair, the converted quantity first. *)
  dm_to_dist : Quantity -> Quantity -> float -> string
               -> outcome (Quantity * Quantity);
  dist_to_dm : Quantity -> Quantity -> Quantity -> string
               -> outcome (Quantity * Quantity);
  (** pandas: the text of a float cell that has no formatter, and the
      markup of a table given its header and the texts of its cells. *)
  default_float_cell : float -> string;
  html_of_cells : list string -> list (list string) -> string
}.

(** ** Python text operations used by the handlers *)

Module Text.

Definition digit_char (d : Z) : ascii := ascii_of_nat (48 + Z.to_nat d).

(** The decimal digits of a natural number, most significant first. *)
Definition Z_digits (n : Z) : string :=
  NilEmpty.string_of_uint (N.to_uint (Z.to_N n)).

(** The last [k] decimal digits of [n], zero padded. *)
Fixpoint frac_digits (k : nat) (n : Z) : string :=
  match k with
  | O => ""
  | S k' => frac_digits k' (n / 10) ++ String (digit_char (n mod 10)) ""
  end.

(** [num / den] rounded to the nearest integer, ties to even. *)
Definition round_half_even (num den : Z) : Z :=
  let q := (num / den)%Z in
  let r := (num mod den)%Z in
  match (2 * r ?= den)%Z with
  | Lt => q
  | Gt => (q + 1)%Z
  | Eq => if Z.even q then q else (q + 1)%Z
  end.

(** [m * 2^e * 10^p] rounded to an integer. *)
Definition scaled (p : nat) (m : positive) (e : Z) : Z :=
  let num := (Zpos m * 10 ^ Z.of_nat p)%Z in
  if (0 <=? e)%Z then (num * 2 ^ e)%Z else round_half_even num (2 ^ (- e)).

Definition sign_text (s : bool) : string := if s then "-" else "".

Definition fixed_text (p : nat) (n : Z) : string :=
  Z_digits (n / 10 ^ Z.of_nat p)
  ++ match p with
     | O => ""
     | S _ => "." ++ frac_digits p n
     end.

(** ["%.pf" % x] and ["{:.pf}".format(x)]: the exact binary value of [x]
    rounded to [p] decimals, ties to even; the sign is the sign bit. *)
Definition format_f (p : nat) (x : float) : string :=
  match Prim2SF x with
  | S754_nan => "nan"
  | S754_infinity s => sign_text s ++ "inf"
  | S754_zero s => sign_text s ++ fixed_text p 0
  | S754_finite s m e => sign_text s ++ fixed_text p (scaled p m e)
  end.

(** [s.replace(old, new)] for a non-empty [old]: scanning from the left,
    each occurrence of [old] is replaced and the scan resumes after it;
    [skip] counts the characters of a replaced occurrence still to pass. *)
Fixpoint replace_from (old new : string) (skip : nat) (s : string) : string :=
  match s with
  | EmptyString => EmptyString
  | String c s' =>
      match skip with
      | S k => replace_from old new k s'
      | O =>
          if prefix old s
          then new ++ replace_from old new (length old - 1) s'
          else String c (replace_from old new 0 s')
      end
  end.

(** [s.replace("", new)] puts [new] before every character and at the
    end. *)
Fixpoint intersperse (new s : string) : string :=
  match s with
  | EmptyString => new
  | String c s' => new ++ String c (intersperse new s')
  end.

Definition str_replace (s old new : string) : string :=
  match old with
  | EmptyString => intersperse new s
  | String _ _ => replace_from old new 0 s
  end.

(** [old in s]. *)
Fixpoint contains (old s : string) : bool :=
  prefix old s
  || match s with
     | EmptyString => false
     | String _ s' => contains old s'
     end.

(** The number that a string of decimal digits denotes, read after the
    digits that gave [acc]. *)
Fixpoint read_digits (s : string) (acc : Z) : Z :=
  match s with
  | EmptyString => acc
  | String c s' =>
      read_digits s' (10 * acc + Z.of_nat (nat_of_ascii c - 48))
  end.

Definition is_digit (c : ascii) : bool :=
  let n := nat_of_ascii c in (48 <=? n)%nat && (n <=? 57)%nat.

Fixpoint all_digits (s : string) : bool :=
  match s with
  | EmptyString => true
  | String c s' => is_digit c && all_digits s'
  end.

(** The text before the first ["."] and the text after it. *)
Fixpoint split_dot (s : string) : option (string * string) :=
  match s with
  | EmptyString => None
  | String c s' =>
      if Ascii.eqb c "."%char then Some (EmptyString, s')
      else match split_dot s' with
           | Some (a, b) => Some (String c a, b)
           | None => None
           end
  end.

(** Fixed-point notation with exactly [p] decimals: an optional minus sign,
    at least one digit, a point and [p] digits. *)
Definition fixed_decimal (p : nat) (s : string) : bool :=
  let body := match s with
              | String "-"%char r => r
              | _ => s
              end in
  match split_dot body with
  | Some (a, b) =>
      negb (String.eqb a "") && all_digits a && all_digits b
      && (length b =? p)%nat
  | None => false
  end.

End Text.
Import Text.

(** ** The matcher *)

Module Matcher.
Section Search.
Context {E : Externals}.

(** A row of a search result: the entry and its angular separation from
    the query centre, in degrees. *)
Definition Row : Type := CatalogEntry SkyCoord * float.

Definition within_radius (R : float) (r : Row) : bool :=
  PrimFloat.leb (snd r) R.

(** The DM window is active when a DM centre and a tolerance are both
    given; an entry without a DM then fails it. *)
Definition in_dm_window (dm : option float) (tol : option pynum)
  (e : CatalogEntry SkyCoord) : bool :=
  match dm, tol with
  | Some d, Some t =>
      match DM e with
      | Some x => PrimFloat.leb (PrimFloat.abs (PrimFloat.sub x d))
                    (float_of_pynum t)
      | None => false
      end
  | _, _ => true
  end.

Fixpoint insert_by_separation (r : Row) (l : list Row) : list Row :=
  match l with
  | [] => [r]
  | y :: l' =>
      if PrimFloat.leb (snd r) (snd y) then r :: l
      else y :: insert_by_separation r l'
  end.

(** Ascending separation; equal separations keep catalog order. *)
Fixpoint sort_by_separation (l : list Row) : list Row :=
  match l with
  | [] => []
  | r :: l' => insert_by_separation r (sort_by_separation l')
  end.

Definition hits (coord : SkyCoord) (R : float) (dm : option float)
  (tol : option pynum) : list Row :=
  filter (fun r => within_radius R r && in_dm_window dm tol (fst r))
    (map (fun e => (e, separation coord (position e))) pulsar_table).

(** Modelled from the spec: [pulsar_table.search] of the external catalog
    library, the Matcher of the spec.  The separation of every entry from
    the query centre is computed, an entry is kept iff its separation is at
    most the radius and, when a DM window is given, its DM lies within the
    tolerance of the DM centre; the rows are ordered by ascending
    separation.  The radius arrives as the quantity the handler built: an
    angle is compared in degrees, a quantity that is not an angle cannot be
    compared with a separation. *)
Definition search (coord : SkyCoord) (radius : Quantity) (dm : option float)
  (tol : option pynum) : outcome (list Row) :=
  if unit_eqb (unit radius) deg
  then Return (sort_by_separation (hits coord (value radius) dm tol))
  else Raise (mkExn UnitConversionError
                "radius is not convertible to an angle").

End Search.
End Matcher.

(** ** The handlers of [app.py] *)

Section Handlers.
Context {E : Externals}.

(** The calls a handler makes to the catalog and to the model library. *)
Inductive event :=
| search_call (coord : SkyCoord) (radius : Quantity) (DM : option float)
    (DM_tolerance : option pynum) (return_json : bool)
| dm_to_dist_call (l b : Quantity) (DM : float) (method : string)
| dist_to_dm_call (l b : Quantity) (distance : Quantity) (method : string).

Record search_page := mkPage {
  coord_string : string;
  nfound : nat;
  html_table : string
}.

(** What a handler returns to the framework. *)
Inductive response :=
| redirect (url : string * list (string * string))
| render_search (form : SearchForm.t) (surveys : list (string * string))
    (page : option search_page)
| render_compute (form : DMForm.t) (strings : option (string * string))
| body (text : string)
| json (rows : list Matcher.Row).

Definition H (A : Type) : Type := M event A.

(** [url_for(endpoint, **values)]: the endpoint with its query parameters,
    each value as text; a value that is [None] is left out. *)
Definition url_for (endpoint : string) (values : list (string * option float))
  : string * list (string * string) :=
  (endpoint,
   flat_map (fun kv => match snd kv with
                       | Some x => [(fst kv, str_of_float x)]
                       | None => []
                       end) values).

(** [float(x)] on a form field: the identity on a float, a [TypeError] on
    [None]. *)
Definition float_of_float (x : float) : float := x.

Definition float_of_field (x : option float) : H float :=
  match x with
  | Some f => ret (float_of_float f)
  | None => raise TypeError "float() argument must be a string or a number"
  end.

(** [float(s)] on request text. *)
Definition float_of_text (s : string) : H float :=
  match float_of_str s with
  | Some f => ret f
  | None => raise ValueError ("could not convert string to float: " ++ s)
  end.

(** [request.args]: the first value bound to a key. *)
Fixpoint lookup {A} (k : string) (args : list (string * A)) : option A :=
  match args with
  | [] => None
  | (k', v) :: rest => if String.eqb k k' then Some v else lookup k rest
  end.

Definition pulsar_table_search (coord : SkyCoord) (radius : Quantity)
  (dm : option float) (tol : option pynum) (return_json : bool)
  : H (list Matcher.Row) :=
  emit (search_call coord radius dm tol return_json)
       (Matcher.search coord radius dm tol).

(** *** The table of the search page *)

Inductive cell :=
| text_cell (s : string)
| float_cell (x : float).

Record DataFrame := mkFrame {
  columns : list string;
  data : list (list cell)
}.

(** Modelled from the spec: the columns of the tabular output (name,
    position, DM, period, distance, separation, survey); an absent DM is
    not-a-number in the frame. *)
Definition to_pandas (result : list Matcher.Row) : DataFrame :=
  mkFrame ["PSR"; "RA"; "Dec"; "DM"; "P"; "Distance"; "Separation"; "survey"]
    (map (fun r : Matcher.Row =>
            let e := fst r in
            [text_cell (PSR e);
             float_cell (ra_deg (position e));
             float_cell (dec_deg (position e));
             float_cell (match DM e with Some x => x | None => nan end);
             float_cell (P e);
             float_cell (Distance e);
             float_cell (snd r);
             text_cell (survey e)]) result).

(** [to_html]'s default [na_rep]. *)
Definition na_rep : string := "NaN".

(** The text of a cell: a float of a column that has a formatter goes
    through the formatter, except a not-a-number, which is not handed to
    the formatter and is shown as [na_rep]. *)
Definition render_cell (formatters : list (string * (float -> string)))
  (column : string) (c : cell) : string :=
  match c with
  | text_cell s => s
  | float_cell x =>
      match lookup column formatters with
      | Some f => if float_is_nan x then na_rep else f x
      | None => default_float_cell x
      end
  end.

Fixpoint render_row (formatters : list (string * (float -> string)))
  (cols : list string) (row : list cell) : list string :=
  match cols, row with
  | col :: cols', c :: row' =>
      render_cell formatters col c :: render_row formatters cols' row'
  | _, _ => []
  end.

(** [df.to_html(formatters=...)]: every element of a column that has a
    formatter is rendered by it, a missing value by [na_rep]. *)
Definition to_html (formatters : list (string * (float -> string)))
  (df : DataFrame) : string :=
  html_of_cells (columns df)
    (map (render_row formatters (columns df)) (data df)).

(** ["<a href='{}'>{}</a>".format(url, survey)]. *)
Definition survey_link (url survey : string) : string :=
  "<a href='" ++ url ++ "'>" ++ survey ++ "</a>".

(** The loop over the survey table: each name is replaced throughout the
    table text by a link to the survey's site. *)
Definition link_surveys (surveys : list (string * string)) (html : string)
  : string :=
  fold_left (fun h s => str_replace h (fst s) (survey_link (snd s) (fst s)))
    surveys html.

Definition search_formatters : list (string * (float -> string)) :=
  [("P", format_f 2); ("Distance", format_f 2)].

(** *** [Search]: the search form route (app.py, lines 33-140) *)

Definition Search (form : SearchForm.t) : H response :=
  let surveys := Surveys in
  if SearchForm_validate_on_submit form then
    coord <- lift (parse_equcoord_and_validate (SearchForm.coordinates form)) ;;
    let DM := match SearchForm.dm form with
              | Some x => Some (float_of_float x)
              | None => SearchForm.dm form
              end in
    let DMtol := match SearchForm.dmtol form with
                 | Some x => Some (float_of_float x)
                 | None => SearchForm.dm form
                 end in
    if SearchForm.api form then
      match DM with
      | None =>
          radius <- float_of_field (SearchForm.radius form) ;;
          ret (redirect (url_for "API" [("ra", Some (ra_deg coord));
                                        ("dec", Some (dec_deg coord));
                                        ("radius", Some radius)]))
      | Some _ =>
          radius <- float_of_field (SearchForm.radius form) ;;
          ret (redirect (url_for "API" [("ra", Some (ra_deg coord));
                                        ("dec", Some (dec_deg coord));
                                        ("radius", Some radius);
                                        ("dm", DM);
                                        ("dmtol", DMtol)]))
      end
    else if SearchForm.clear form then ret (redirect (url_for "Search" []))
    else
      radius <- float_of_field (SearchForm.radius form) ;;
      result <- pulsar_table_search coord (times_unit (Num radius) deg) DM
                  (option_map PyFloat DMtol) false ;;
      shown <- float_of_field (SearchForm.radius form) ;;
      let coord_string :=
        "Searching " ++ format_f 1 shown ++ "deg around RA,Dec "
        ++ to_string_hmsdms coord ++ " = " ++ ra_to_string_decimal coord
        ++ "d," ++ dec_to_string_decimal coord ++ "d ..." in
      coord_string <-
        match DM with
        | None => ret coord_string
        | Some d =>
            match DMtol with
            | Some t =>
                ret (coord_string ++ "<br>Also requiring DM with +/-"
                     ++ format_f 1 t ++ " of " ++ format_f 1 d
                     ++ " pc/cm**2")
            | None => raise TypeError "unsupported format string"
            end
        end ;;
      let df := to_pandas result in
      let html_table := to_html search_formatters df in
      let html_table := link_surveys Surveys html_table in
      ret (render_search form surveys
             (Some (mkPage coord_string (List.length result) html_table)))
  else if SearchForm.clear form then ret (redirect (url_for "Search" []))
  else ret (render_search form surveys None).

(** *** [API]: the query route (app.py, lines 143-188) *)

Definition API (args : list (string * string)) : H response :=
  (* default values *)
  let radius := Qty (mkQuantity 5 deg) in
  let dm : option float := None in
  let dmtol := PyInt 10 in
  match lookup "ra" args with
  | None => ret (body "Error: no RA specified")
  | Some s =>
      ra <- float_of_text s ;;
      match lookup "dec" args with
      | None => ret (body "Error: no Dec specified")
      | Some s =>
          dec <- float_of_text s ;;
          radius <- match lookup "radius" args with
                    | Some s => r <- float_of_text s ;; ret (Num r)
                    | None => ret radius
                    end ;;
          dm <- match lookup "dm" args with
                | Some s => d <- float_of_text s ;; ret (Some d)
                | None => ret dm
                end ;;
          dmtol <- match lookup "dmtol" args with
                   | Some s => t <- float_of_text s ;; ret (PyFloat t)
                   | None => ret dmtol
                   end ;;
          made <- try_except
                    (coord <- lift (SkyCoord_new (times_unit (Num ra) deg)
                                      (times_unit (Num dec) deg)) ;;
                     ret (inl coord))
                    ValueError
                    (fun e =>
                       ret (inr ("Unable to parse RA,Dec = '"
                                 ++ str_of_float ra ++ "," ++ str_of_float dec
                                 ++ "': " ++ message e))) ;;
          match made with
          | inr text => ret (body text)
          | inl coord =>
              result <- pulsar_table_search coord (times_unit radius deg)
                          dm (Some dmtol) true ;;
              ret (json result)
          end
      end
  end.

(** *** [Compute]: the compute form route (app.py, lines 191-268) *)

(** The variables [DM] and [distance] after the dispatch on
    [d_or_dm_selector]: from a DM the DM is a float and the distance the
    library's quantity, from a distance both are quantities. *)
Inductive solved :=
| from_dm (DM : float) (distance : Quantity)
| from_distance (distance : Quantity) (DM : Quantity)
| unsolved.

(** Reading a local variable that no branch has assigned. *)
Definition local {A} (name : string) (x : option A) : H A :=
  match x with
  | Some a => ret a
  | None => raise UnboundLocalError name
  end.

(** [for model, model_label in choices: if model == data: break]: the
    value of [model_label] after the loop. *)
Fixpoint label_after_loop (choices : list (string * string)) (data : string)
  (model_label : option string) : option string :=
  match choices with
  | [] => model_label
  | (model, label) :: rest =>
      if String.eqb model data then Some label
      else label_after_loop rest data (Some label)
  end.

Definition Compute (form : DMForm.t) : H response :=
  if DMForm_validate_on_submit form then
    coord <-
      (if String.eqb (DMForm.lb_or_radec_selector form) "equatorial" then
         c <- lift (parse_equcoord_and_validate (DMForm.coordinates form)) ;;
         ret (Some c)
       else if String.eqb (DMForm.lb_or_radec_selector form) "galactic" then
         c <- lift (parse_galcoord_and_validate (DMForm.coordinates form)) ;;
         ret (Some c)
       else ret None) ;;
    vars <-
      (if String.eqb (DMForm.d_or_dm_selector form) "dm" then
         DM <- float_of_field (DMForm.d_or_dm form) ;;
         c <- local "coord" coord ;;
         '(distance, _) <-
           emit (dm_to_dist_call (galactic_l c) (galactic_b c) DM
                   (DMForm.model_selector form))
                (dm_to_dist (galactic_l c) (galactic_b c) DM
                   (DMForm.model_selector form)) ;;
         ret (from_dm DM distance)
       else if String.eqb (DMForm.d_or_dm_selector form) "distance" then
         x <- float_of_field (DMForm.d_or_dm form) ;;
         let distance := times_unit (Num x) pc in
         c <- local "coord" coord ;;
         '(DM, _) <-
           emit (dist_to_dm_call (galactic_l c) (galactic_b c) distance
                   (DMForm.model_selector form))
                (dist_to_dm (galactic_l c) (galactic_b c) distance
                   (DMForm.model_selector form)) ;;
         ret (from_distance distance DM)
       else ret unsolved) ;;
    (* or, clear the form if desired *)
    if DMForm.clear form then ret (redirect (url_for "Compute" []))
    else
      c <- local "coord" coord ;;
      let coord_string :=
        if String.eqb (DMForm.lb_or_radec_selector form) "equatorial" then
          "Computing for RA,Dec " ++ to_string_hmsdms c ++ " = "
          ++ ra_to_string_decimal c ++ "d," ++ dec_to_string_decimal c ++ "d"
          ++ "<br>= l,b = " ++ l_to_string_decimal c ++ "d,"
          ++ b_to_string_decimal c ++ "d ..."
        else
          "Computing for l,b = " ++ l_to_string_decimal c ++ "d,"
          ++ b_to_string_decimal c ++ "d ..."
          ++ "<br>= RA,Dec " ++ to_string_hmsdms c ++ " = "
          ++ ra_to_string_decimal c ++ "d," ++ dec_to_string_decimal c ++ "d" in
      result_string <-
        match vars with
        | from_dm DM distance =>
            d <- lift (to_unit distance pc) ;;
            ret ("For DM = " ++ format_f 1 DM ++ " pc/cc, find distance = "
                 ++ format_f 1 (value d) ++ " pc")
        | from_distance distance DM =>
            let model_label :=
              label_after_loop (DMForm.model_choices form)
                (DMForm.model_selector form) None in
            d <- lift (to_unit distance pc) ;;
            label <- local "model_label" model_label ;;
            ret ("For distance = " ++ format_f 1 (value d)
                 ++ " pc, find DM = " ++ format_f 1 (value DM)
                 ++ " pc/cc with the " ++ label ++ " model")
        | unsolved => raise UnboundLocalError "result_string"
        end ;;
      ret (render_compute form (Some (coord_string, result_string)))
  else if DMForm.clear form then ret (redirect (url_for "Compute" []))
  else ret (render_compute form None).

End Handlers.

(** ** A fixture

    Small stand-ins for the collaborators, on which the handlers run: plain
    decimal text for floats, coordinates as a pair of degrees, a
    three-entry catalog and a linear model library.  The theorems below
    hold for every collaborator; the fixture serves to run the handlers on
    examples. *)

Module Fixture.

Fixpoint digits_value (s : string) (acc : Z) : Z :=
  match s with
  | EmptyString => acc
  | String c s' => digits_value s' (10 * acc + Z.of_nat (nat_of_ascii c - 48))
  end.

Definition signed (neg : bool) (x : float) : float :=
  if neg then PrimFloat.opp x else x.

(** Plain decimal literals: an optional sign, digits, and optionally a
    point and further digits; also [nan] and [inf]. *)
Definition parse_decimal (s : string) : option float :=
  let neg := match s with String "-"%char _ => true | _ => false end in
  let mag := match s with
              | String "-"%char r => r
              | String "+"%char r => r
              | _ => s
              end in
  if String.eqb mag "nan" then Some nan
  else if String.eqb mag "inf" then Some (signed neg infinity)
  else match split_dot mag with
       | Some (a, b) =>
           if all_digits a && all_digits b && negb (String.eqb (a ++ b) "")
           then Some (signed neg
                        (PrimFloat.div (float_of_Z (digits_value (a ++ b) 0))
                           (float_of_Z (10 ^ Z.of_nat (length b)))))
           else None
       | None =>
           if all_digits mag && negb (String.eqb mag "")
           then Some (signed neg (float_of_Z (digits_value mag 0)))
           else None
       end.

(** Drops trailing zeros of a [k]-digit fraction [n / 10^k], keeping one
    digit. *)
Fixpoint shorten (k : nat) (n : Z) : nat * Z :=
  match k with
  | O => (k, n)
  | S k1 =>
      match k1 with
      | O => (k, n)
      | S _ => if (n mod 10 =? 0)%Z then shorten k1 (n / 10) else (k, n)
      end
  end.

(** The exact decimal expansion of a float. *)
Definition print_decimal (x : float) : string :=
  match Prim2SF x with
  | S754_nan => "nan"
  | S754_infinity s => sign_text s ++ "inf"
  | S754_zero s => sign_text s ++ "0.0"
  | S754_finite s m e =>
      sign_text s
      ++ (if (0 <=? e)%Z then Z_digits (Zpos m * 2 ^ e) ++ ".0"
          else
            let k := Z.to_nat (- e) in
            let '(k', n) := shorten k (Zpos m * 5 ^ Z.of_nat k) in
            fixed_text k' n)
  end.

(** The text before the first space and the text after it. *)
Fixpoint split_space (s : string) : option (string * string) :=
  match s with
  | EmptyString => None
  | String c s' =>
      if Ascii.eqb c " "%char then Some (EmptyString, s')
      else match split_space s' with
           | Some (a, b) => Some (String c a, b)
           | None => None
           end
  end.

Definition Coord : Type := float * float.

(** A latitude outside of [-90, 90] degrees is a [ValueError]. *)
Definition new_coord (lon lat : Quantity) : outcome Coord :=
  if unit_eqb (unit lon) deg && unit_eqb (unit lat) deg then
    if PrimFloat.ltb (value lat) (-90) || PrimFloat.ltb 90 (value lat)
    then Raise (mkExn ValueError
                  "Latitude angle(s) must be within -90 deg <= angle <= 90 deg")
    else Return (value lon, value lat)
  else Raise (mkExn UnitConversionError "not an angle").

Definition parse_pair (s : string) : outcome Coord :=
  match split_space s with
  | Some (a, b) =>
      match parse_decimal a, parse_decimal b with
      | Some x, Some y => new_coord (mkQuantity x deg) (mkQuantity y deg)
      | _, _ => Raise (mkExn ValidationError "cannot parse coordinates")
      end
  | None => Raise (mkExn ValidationError "cannot parse coordinates")
  end.

Definition is_return {A} (o : outcome A) : bool :=
  match o with
  | Return _ => true
  | Raise _ => false
  end.

Definition is_some {A} (o : option A) : bool :=
  match o with
  | Some _ => true
  | None => false
  end.

Definition distance_between (a b : Coord) : float :=
  PrimFloat.add (PrimFloat.abs (PrimFloat.sub (fst a) (fst b)))
                (PrimFloat.abs (PrimFloat.sub (snd a) (snd b))).

Definition cells_row (tag : string) (cells : list string) : string :=
  "<tr>" ++ concat "" (map (fun c => "<" ++ tag ++ ">" ++ c ++ "</" ++ tag ++ ">") cells)
  ++ "</tr>".

Definition table_markup (header : list string) (rows : list (list string))
  : string :=
  "<table>" ++ cells_row "th" header
  ++ concat "" (map (cells_row "td") rows) ++ "</table>".

Definition catalog : list (CatalogEntry Coord) :=
  [ mkEntry "J0534+2200" (83.625, 22)%float (Some 56.75%float)
      0.03125%float 2000%float "GBNCC";
    mkEntry "J0540+2329" (85.25, 23.5)%float (Some 77.5%float)
      0.25%float 1500%float "PALFA";
    mkEntry "J1857+0943" (284.5, 9.75)%float None
      0.005859375%float 900%float "PALFA" ].

Definition survey_table : list (string * string) :=
  [ ("GBNCC", "http://astro.phys.wvu.edu/GBNCC/");
    ("PALFA", "http://www.naic.edu/~palfa/newpulsars/") ].

(** The collaborators over a survey table, a catalog and the second
    component [extra] that the model library returns beside its result. *)
Definition make (surveys : list (string * string))
  (table : list (CatalogEntry Coord)) (extra : float) : Externals :=
  {| float_of_str := parse_decimal;
     str_of_float := print_decimal;
     SkyCoord := Coord;
     SkyCoord_new := new_coord;
     ra_deg := fst;
     dec_deg := snd;
     galactic_l := fun c => mkQuantity (fst c) deg;
     galactic_b := fun c => mkQuantity (snd c) deg;
     separation := distance_between;
     to_string_hmsdms := fun c => print_decimal (fst c) ++ " " ++ print_decimal (snd c);
     ra_to_string_decimal := fun c => format_f 4 (fst c);
     dec_to_string_decimal := fun c => format_f 4 (snd c);
     l_to_string_decimal := fun c => format_f 4 (fst c);
     b_to_string_decimal := fun c => format_f 4 (snd c);
     SearchForm_validate_on_submit := fun f =>
       is_return (parse_pair (SearchForm.coordinates f))
       && is_some (SearchForm.radius f);
     DMForm_validate_on_submit := fun f =>
       is_return (parse_pair (DMForm.coordinates f))
       && is_some (DMForm.d_or_dm f);
     parse_equcoord_and_validate := parse_pair;
     parse_galcoord_and_validate := parse_pair;
     Surveys := surveys;
     pulsar_table := table;
     dm_to_dist := fun _ _ dm _ =>
       Return (mkQuantity (PrimFloat.mul dm 20) pc, mkQuantity extra pc);
     dist_to_dm := fun _ _ d _ =>
       Return (mkQuantity (PrimFloat.div (value d) 20) pc_cm3,
               mkQuantity extra pc_cm3);
     default_float_cell := print_decimal;
     html_of_cells := table_markup |}.

Definition externals : Externals := make survey_table catalog 0.

(** A catalog with an entry whose period is not known. *)
Definition catalog_without_period : list (CatalogEntry Coord) :=
  [ mkEntry "J1849-0001" (282.25, -0.0625)%float (Some 262.5%float)
      nan 7000%float "PALFA" ].

(** A survey table in which one name begins with another, and a catalog
    with an entry of the longer-named survey and an entry whose pulsar name
    contains a survey name. *)
Definition nested_surveys : list (string * string) :=
  [ ("FAST", "https://fast.bao.ac.cn/");
    ("FAST-GPPS", "http://zmtt.bao.ac.cn/GPPS/") ].

Definition nested_catalog : list (CatalogEntry Coord) :=
  [ mkEntry "J1859+0313" (284.75, 3.25)%float (Some 107.5%float)
      1.5%float 5000%float "FAST-GPPS";
    mkEntry "FAST J1900+0300" (285, 3)%float None
      0.5%float 4000%float "FAST" ].

(** The collaborators [E] with another model library. *)
Definition with_model_library (E : Externals)
  (to_dist : Quantity -> Quantity -> float -> string
             -> outcome (Quantity * Quantity))
  (to_dm : Quantity -> Quantity -> Quantity -> string
           -> outcome (Quantity * Quantity)) : Externals :=
  {| float_of_str := @float_of_str E;
     str_of_float := @str_of_float E;
     SkyCoord := @SkyCoord E;
     SkyCoord_new := @SkyCoord_new E;
     ra_deg := @ra_deg E;
     dec_deg := @dec_deg E;
     galactic_l := @galactic_l E;
     galactic_b := @galactic_b E;
     separation := @separation E;
     to_string_hmsdms := @to_string_hmsdms E;
     ra_to_string_decimal := @ra_to_string_decimal E;
     dec_to_string_decimal := @dec_to_string_decimal E;
     l_to_string_decimal := @l_to_string_decimal E;
     b_to_string_decimal := @b_to_string_decimal E;
     SearchForm_validate_on_submit := @SearchForm_validate_on_submit E;
     DMForm_validate_on_submit := @DMForm_validate_on_submit E;
     parse_equcoord_and_validate := @parse_equcoord_and_validate E;
     parse_galcoord_and_validate := @parse_galcoord_and_validate E;
     Surveys := @Surveys E;
     pulsar_table := @pulsar_table E;
     dm_to_dist := to_dist;
     dist_to_dm := to_dm;
     default_float_cell := @default_float_cell E;
     html_of_cells := @html_of_cells E |}.

(** A model library that rejects every input. *)
Definition rejecting : Externals :=
  with_model_library externals
    (fun _ _ _ _ => Raise (mkExn ModelError "input out of range"))
    (fun _ _ _ _ => Raise (mkExn ModelError "input out of range")).

(** Submissions and requests to run the handlers on. *)
Definition crab_search (api clear : bool) : SearchForm.t :=
  SearchForm.mk "83.625 22" (Some 3%float) (Some 56.75%float) None api clear.

Definition crab_compute (solve : string) (clear : bool) : DMForm.t :=
  DMForm.mk "83.625 22" "equatorial" solve (Some 50%float) "ymw16"
    [("ne2001", "NE2001"); ("ymw16", "YMW16")] clear.

Definition crab_request : list (string * string) :=
  [("ra", "83.625"); ("dec", "22.0")].

End Fixture.

(** ** Vocabulary of the statements *)

Section Vocabulary.
Context {E : Externals}.

(** A request parameter that is present with text that [float] accepts. *)
Definition required (args : list (string * string)) (k : string) (x : float)
  : Prop :=
  exists s, lookup k args = Some s /\ float_of_str s = Some x.

(** An optional request parameter: absent, or present with text that
    [float] accepts. *)
Definition optional (args : list (string * string)) (k : string)
  (x : option float) : Prop :=
  match lookup k args with
  | Some s => x <> None /\ float_of_str s = x
  | None => x = None
  end.

(** A request parameter that is present with text that [float] rejects. *)
Definition malformed (args : list (string * string)) (k : string) : Prop :=
  exists s, lookup k args = Some s /\ float_of_str s = None.

(** The radius and the tolerance that [API] hands to the matcher, from the
    values of the request parameters that are present. *)
Definition API_radius (r : option float) : Quantity :=
  match r with
  | Some x => mkQuantity x deg
  | None => mkQuantity 5 (unit_mul deg deg)
  end.

Definition API_dmtol (t : option float) : pynum :=
  match t with
  | Some x => PyFloat x
  | None => PyInt 10
  end.

(** The rows lie within [R] of [coord]: each is a catalog entry with its
    separation, at most [R]; and no catalog entry farther than [R] is among
    them. *)
Definition within (coord : SkyCoord) (R : float) (rows : list Matcher.Row)
  : Prop :=
  (forall r, In r rows ->
     In (fst r) pulsar_table
     /\ snd r = separation coord (position (fst r))
     /\ PrimFloat.leb (snd r) R = true)
  /\ (forall e s, In e pulsar_table ->
        PrimFloat.ltb R (separation coord (position e)) = true ->
        ~ In (e, s) rows).

(** The tolerance [Search] uses: the tolerance field, or else the DM field. *)
Definition Search_DMtol (form : SearchForm.t) : option float :=
  match SearchForm.dmtol form with
  | Some t => Some t
  | None => SearchForm.dm form
  end.

(** The query parameters of the redirect that [Search] issues to [API]. *)
Definition API_values (form : SearchForm.t) (coord : SkyCoord) (R : float)
  : list (string * string) :=
  [("ra", str_of_float (ra_deg coord));
   ("dec", str_of_float (dec_deg coord));
   ("radius", str_of_float R)]
  ++ match SearchForm.dm form, Search_DMtol form with
     | Some d, Some t => [("dm", str_of_float d); ("dmtol", str_of_float t)]
     | _, _ => []
     end.

(** Text written by [str] is read back by [float] as the same float. *)
Definition roundtrips (x : float) : Prop :=
  float_of_str (str_of_float x) = Some x.

Definition present (x : option float) : list float :=
  match x with
  | Some v => [v]
  | None => []
  end.

(** Two submissions of the search form with the same inputs. *)
Definition same_inputs (f g : SearchForm.t) : Prop :=
  SearchForm.coordinates f = SearchForm.coordinates g
  /\ SearchForm.radius f = SearchForm.radius g
  /\ SearchForm.dm f = SearchForm.dm g
  /\ SearchForm.dmtol f = SearchForm.dmtol g.

(** The text of a period or distance cell: [NaN] for a value that is not a
    number, and otherwise the value through the two-decimal formatter. *)
Definition two_decimal_cell (x : float) : string :=
  if float_is_nan x then "NaN" else format_f 2 x.

(** The header of the search table and the cell texts of a row: the
    period and the distance as two-decimal cells. *)
Definition table_columns : list string :=
  ["PSR"; "RA"; "Dec"; "DM"; "P"; "Distance"; "Separation"; "survey"].

Definition row_texts (r : Matcher.Row) : list string :=
  let e := fst r in
  [PSR e;
   default_float_cell (ra_deg (position e));
   default_float_cell (dec_deg (position e));
   default_float_cell (match DM e with Some x => x | None => nan end);
   two_decimal_cell (P e);
   two_decimal_cell (Distance e);
   default_float_cell (snd r);
   survey e].

(** The cell texts that [to_html] hands to the markup for a result. *)
Definition rendered_rows (rows : list Matcher.Row) : list (list string) :=
  map (render_row search_formatters (columns (to_pandas rows)))
      (data (to_pandas rows)).

(** The period and distance cells (the fifth and sixth of a row) of every
    search result are in two-decimal notation. *)
Definition two_decimals_in_every_row : Prop :=
  forall coord R dm tol rows texts,
    Matcher.search coord (mkQuantity R deg) dm tol = Return rows ->
    In texts (rendered_rows rows) ->
    fixed_decimal 2 (nth 4 texts "") = true
    /\ fixed_decimal 2 (nth 5 texts "") = true.

(** The coordinate of a compute submission: parsed as equatorial or as
    galactic, as the selector says. *)
Definition parsed_coordinate (form : DMForm.t) (c : SkyCoord) : Prop :=
  (DMForm.lb_or_radec_selector form = "equatorial"
   /\ parse_equcoord_and_validate (DMForm.coordinates form) = Return c)
  \/ (DMForm.lb_or_radec_selector form = "galactic"
      /\ parse_galcoord_and_validate (DMForm.coordinates form) = Return c).

(** The coordinate string of the compute page: the frame that was entered
    first, then the other. *)
Definition Compute_coord_string (form : DMForm.t) (c : SkyCoord) : string :=
  if String.eqb (DMForm.lb_or_radec_selector form) "equatorial" then
    "Computing for RA,Dec " ++ to_string_hmsdms c ++ " = "
    ++ ra_to_string_decimal c ++ "d," ++ dec_to_string_decimal c ++ "d"
    ++ "<br>= l,b = " ++ l_to_string_decimal c ++ "d,"
    ++ b_to_string_decimal c ++ "d ..."
  else
    "Computing for l,b = " ++ l_to_string_decimal c ++ "d,"
    ++ b_to_string_decimal c ++ "d ..."
    ++ "<br>= RA,Dec " ++ to_string_hmsdms c ++ " = "
    ++ ra_to_string_decimal c ++ "d," ++ dec_to_string_decimal c ++ "d".

(** The two strings of a rendered compute page. *)
Definition rendered_strings (r : outcome response * list event)
  : option (string * string) :=
  match fst r with
  | Return (render_compute _ strings) => strings
  | _ => None
  end.

End Vocabulary.

(** The cell texts of a row in which the survey cell, and no other, is a
    link to the site of its survey. *)
Definition linked_row_texts `{Externals} (r : Matcher.Row) : list string :=
  let e := fst r in
  [PSR e;
   default_float_cell (ra_deg (position e));
   default_float_cell (dec_deg (position e));
   default_float_cell (match DM e with Some x => x | None => nan end);
   two_decimal_cell (P e);
   two_decimal_cell (Distance e);
   default_float_cell (snd r);
   match lookup (survey e) Surveys with
   | Some url => survey_link url (survey e)
   | None => survey e
   end].

(** In the table of the search page exactly the survey cells are links,
    each to the site of its own survey. *)
Definition only_survey_cells_linked `{Externals} : Prop :=
  forall coord R dm tol rows,
    Matcher.search coord (mkQuantity R deg) dm tol = Return rows ->
    link_surveys Surveys (to_html search_formatters (to_pandas rows))
    = html_of_cells table_columns (map linked_row_texts rows).

(** [replaced old new s t]: [t] is [s] with the occurrences of [old] met
    from the left replaced by [new], and every other character copied. *)
Inductive replaced (old new : string) : string -> string -> Prop :=
| replaced_end : replaced old new "" ""
| replaced_hit s t :
    replaced old new s t -> replaced old new (old ++ s) (new ++ t)
| replaced_copy c s t :
    prefix old (String c s) = false ->
    replaced old new s t -> replaced old new (String c s) (String c t).

(** [linked surveys h h']: [h'] comes from [h] by replacing the name of
    each survey by its link, one survey after the other in table order. *)
Inductive linked : list (string * string) -> string -> string -> Prop :=
| linked_done h : linked [] h h
| linked_next name url rest h h1 h2 :
    replaced name (survey_link url name) h h1 ->
    linked rest h1 h2 ->
    linked ((name, url) :: rest) h h2.

(** A float that is a number: neither not-a-number nor an infinity. *)
Definition finite (x : float) : bool :=
  match Prim2SF x with
  | S754_zero _ | S754_finite _ _ _ => true
  | S754_infinity _ | S754_nan => false
  end.

(** The compute page surfaces what the model library returns beside its
    result: libraries that differ in it render differently. *)
Definition surfaces_second_value : Prop :=
  forall (x y : float) (form : DMForm.t),
    rendered_strings
      (run (@Compute (Fixture.make Fixture.survey_table Fixture.catalog x)
              form))
    <> None ->
    rendered_strings
      (run (@Compute (Fixture.make Fixture.survey_table Fixture.catalog x)
              form))
    = rendered_strings
        (run (@Compute (Fixture.make Fixture.survey_table Fixture.catalog y)
                form)) ->
    x = y.

(** ** Running the handlers *)

Ltac unfold_py :=
  unfold run, bind, ret, raise, lift, emit, try_except,
    float_of_text, float_of_field, float_of_float, local,
    pulsar_table_search in *.

Section API_facts.
Context {E : Externals}.

(** With [ra] and [dec] readable and the optional parameters readable when
    present, [API] builds the coordinate and, unless the coordinate library
    rejects it, searches once. *)
Lemma API_run args ra dec r dm tol :
  required args "ra" ra -> required args "dec" dec ->
  optional args "radius" r -> optional args "dm" dm ->
  optional args "dmtol" tol ->
  run (API args) =
  match SkyCoord_new (mkQuantity ra deg) (mkQuantity dec deg) with
  | Return coord =>
      (match Matcher.search coord (API_radius r) dm (Some (API_dmtol tol)) with
       | Return rows => Return (json rows)
       | Raise e => Raise e
       end,
       [search_call coord (API_radius r) dm (Some (API_dmtol tol)) true])
  | Raise e =>
      if is_a (kind e) ValueError
      then (Return (body ("Unable to parse RA,Dec = '" ++ str_of_float ra
                          ++ "," ++ str_of_float dec ++ "': " ++ message e)),
            [])
      else (Raise e, [])
  end.
Proof.
  intros (sra & Hra & Pra) (sdec & Hdec & Pdec) Hr Hdm Htol.
  unfold optional in *. unfold API. unfold_py.
  rewrite Hra, Pra, Hdec, Pdec.
  destruct (lookup "radius" args) as [sr|];
    [destruct Hr as [Hn Hs]; rewrite Hs; destruct r; [|congruence] | subst r];
    (destruct (lookup "dm" args) as [sd|];
     [destruct Hdm as [Hn' Hs']; rewrite Hs'; destruct dm; [|congruence]
     | subst dm]);
    (destruct (lookup "dmtol" args) as [st|];
     [destruct Htol as [Hn'' Hs'']; rewrite Hs''; destruct tol; [|congruence]
     | subst tol]);
    cbn -[Matcher.search append];
    (destruct (SkyCoord_new (mkQuantity ra deg) (mkQuantity dec deg))
       as [coord|e]; cbn -[Matcher.search append];
     [ match goal with
       | |- context [Matcher.search ?c ?q ?d ?t] =>
           destruct (Matcher.search c q d t); reflexivity
       end
     | destruct (is_a (kind e) ValueError); reflexivity ]).
Qed.


(** Supplied values override the defaults; an omitted DM stays absent and
    an omitted tolerance is 10. *)
Lemma API_search_arguments args ra dec r dm tol coord :
  required args "ra" ra -> required args "dec" dec ->
  optional args "radius" r -> optional args "dm" dm ->
  optional args "dmtol" tol ->
  SkyCoord_new (mkQuantity ra deg) (mkQuantity dec deg) = Return coord ->
  snd (run (API args)) =
  [search_call coord (API_radius r) dm (Some (API_dmtol tol)) true].
Proof.
  intros Hra Hdec Hr Hdm Htol Hc.
  rewrite (API_run args ra dec r dm tol Hra Hdec Hr Hdm Htol), Hc.
  reflexivity.
Qed.

Lemma API_missing_ra args :
  lookup "ra" args = None ->
  run (API args) = (Return (body "Error: no RA specified"), []).
Proof. intros H. unfold API. rewrite H. reflexivity. Qed.

Lemma API_missing_dec args ra :
  required args "ra" ra -> lookup "dec" args = None ->
  run (API args) = (Return (body "Error: no Dec specified"), []).
Proof.
  intros (s & Hs & Ps) H. unfold API. unfold_py.
  rewrite Hs, Ps, H. reflexivity.
Qed.

(** Without [ra] or without [dec] the catalog is never searched. *)
Lemma API_missing_no_search args :
  lookup "ra" args = None \/ lookup "dec" args = None ->
  snd (run (API args)) = [].
Proof.
  intros H. unfold API. unfold_py.
  destruct (lookup "ra" args) as [s|]; [|reflexivity].
  destruct H as [H|H]; [discriminate|]. rewrite H.
  destruct (float_of_str s); reflexivity.
Qed.

(** C2 -- A request without [dec] whose [ra] text is not a number does not
    get the "no Dec specified" message: [float] raises a [ValueError] that
    nothing catches (the catalog is not searched). *)
Theorem API_missing_dec_unreadable_ra args :
  malformed args "ra" -> lookup "dec" args = None ->
  exists e, run (API args) = (Raise e, []) /\ kind e = ValueError.
Proof.
  intros (s & Hs & Ps) H. unfold API. unfold_py.
  rewrite Hs, Ps. eexists. split; reflexivity.
Qed.

(** C5 -- With [ra] and [dec] present, a parameter among [ra], [dec],
    [radius], [dm] and [dmtol] that is present with text [float] rejects
    makes the handler end in an uncaught [ValueError] instead of returning
    an error message; the catalog is not searched. *)
Theorem API_unreadable_number_raises args k :
  lookup "ra" args <> None -> lookup "dec" args <> None ->
  In k ["ra"; "dec"; "radius"; "dm"; "dmtol"] ->
  malformed args k ->
  exists e, run (API args) = (Raise e, []) /\ kind e = ValueError.
Proof.
  intros Hra Hdec Hk (s & Hs & Ps).
  unfold API. unfold_py.
  destruct (lookup "ra" args) as [sra|] eqn:Lra; [|congruence].
  destruct (float_of_str sra) as [ra|] eqn:Pra;
    [|eexists; split; reflexivity].
  destruct (lookup "dec" args) as [sdec|] eqn:Ldec; [|congruence].
  destruct (float_of_str sdec) as [dec|] eqn:Pdec;
    [|eexists; split; reflexivity].
  destruct (lookup "radius" args) as [sr|] eqn:Lr;
    [destruct (float_of_str sr) as [r|] eqn:Pr;
     [|eexists; split; reflexivity]|];
    (destruct (lookup "dm" args) as [sd|] eqn:Ld;
     [destruct (float_of_str sd) as [d|] eqn:Pd;
      [|eexists; split; reflexivity]|]);
    (destruct (lookup "dmtol" args) as [st|] eqn:Lt;
     [destruct (float_of_str st) as [t|] eqn:Pt;
      [|eexists; split; reflexivity]|]);
    exfalso; simpl in Hk;
    repeat (destruct Hk as [Hk|Hk]; [subst k; congruence|]);
    exact Hk.
Qed.

(** C6 -- When [radius] is omitted the handler searches with the default
    multiplied by the degree a second time: the matcher receives 5 square
    degrees, which is not an angle.  The omitted DM is absent and the
    omitted tolerance is 10. *)
Theorem API_default_radius_square_degrees args ra dec dm tol coord :
  required args "ra" ra -> required args "dec" dec ->
  lookup "radius" args = None ->
  optional args "dm" dm -> optional args "dmtol" tol ->
  SkyCoord_new (mkQuantity ra deg) (mkQuantity dec deg) = Return coord ->
  snd (run (API args)) =
  [search_call coord (mkQuantity 5 (mkUnit 2 0 0)) dm (Some (API_dmtol tol))
     true]
  /\ unit_eqb (mkUnit 2 0 0) deg = false.
Proof.
  intros Hra Hdec Hr Hdm Htol Hc. split; [|reflexivity].
  assert (Ho : optional args "radius" None) by (unfold optional; now rewrite Hr).
  rewrite (API_search_arguments args ra dec None dm tol coord); auto.
Qed.


(** [API] answers with rows only when [ra], [dec] and a radius were given
    and read, and the rows are then the matcher's. *)
Lemma API_returns_rows args rows :
  fst (run (API args)) = Return (json rows) ->
  exists ra dec R dm tol coord,
    required args "ra" ra /\ required args "dec" dec
    /\ required args "radius" R
    /\ optional args "dm" dm /\ optional args "dmtol" tol
    /\ SkyCoord_new (mkQuantity ra deg) (mkQuantity dec deg) = Return coord
    /\ Matcher.search coord (mkQuantity R deg) dm (Some (API_dmtol tol))
       = Return rows.
Proof.
  intros H.
  destruct (lookup "ra" args) as [sra|] eqn:Lra;
    [|rewrite API_missing_ra in H by assumption; discriminate].
  destruct (float_of_str sra) as [ra|] eqn:Pra;
    [|unfold API in H; unfold_py; rewrite Lra, Pra in H; discriminate].
  destruct (lookup "dec" args) as [sdec|] eqn:Ldec;
    [|unfold API in H; unfold_py; rewrite Lra, Pra, Ldec in H; discriminate].
  destruct (float_of_str sdec) as [dec|] eqn:Pdec;
    [|unfold API in H; unfold_py; rewrite Lra, Pra, Ldec, Pdec in H;
      discriminate].
  assert (Hra : required args "ra" ra) by (exists sra; auto).
  assert (Hdec : required args "dec" dec) by (exists sdec; auto).
  assert (Hr : (exists s, lookup "radius" args = Some s
                          /\ float_of_str s = None)
               \/ exists r, optional args "radius" r).
  { unfold optional. destruct (lookup "radius" args) as [s|].
    - destruct (float_of_str s) as [x|] eqn:Px.
      + right. exists (Some x). split; [discriminate | reflexivity].
      + left. exists s. auto.
    - right. exists None. reflexivity. }
  assert (Hd : (exists s, lookup "dm" args = Some s /\ float_of_str s = None)
               \/ exists r, optional args "dm" r).
  { unfold optional. destruct (lookup "dm" args) as [s|].
    - destruct (float_of_str s) as [x|] eqn:Px.
      + right. exists (Some x). split; [discriminate | reflexivity].
      + left. exists s. auto.
    - right. exists None. reflexivity. }
  assert (Ht : (exists s, lookup "dmtol" args = Some s
                          /\ float_of_str s = None)
               \/ exists r, optional args "dmtol" r).
  { unfold optional. destruct (lookup "dmtol" args) as [s|].
    - destruct (float_of_str s) as [x|] eqn:Px.
      + right. exists (Some x). split; [discriminate | reflexivity].
      + left. exists s. auto.
    - right. exists None. reflexivity. }
  destruct Hr as [(s & Ls & Ps)|[r Hr]].
  { unfold API in H. unfold_py.
    rewrite Lra, Pra, Ldec, Pdec, Ls, Ps in H. discriminate. }
  destruct Hd as [(s & Ls & Ps)|[dm Hd]].
  { unfold API, optional in *. unfold_py.
    rewrite Lra, Pra, Ldec, Pdec, Ls, Ps in H.
    destruct (lookup "radius" args) as [sr|];
      [destruct Hr as [_ Hr]; rewrite Hr in H; destruct r|]; discriminate. }
  destruct Ht as [(s & Ls & Ps)|[tol Ht]].
  { unfold API, optional in *. unfold_py.
    rewrite Lra, Pra, Ldec, Pdec, Ls, Ps in H.
    destruct (lookup "radius" args) as [sr|];
      [destruct Hr as [_ Hr]; rewrite Hr in H; destruct r|];
      (destruct (lookup "dm" args) as [sd|];
       [destruct Hd as [_ Hd]; rewrite Hd in H; destruct dm|]);
      discriminate. }
  rewrite (API_run args ra dec r dm tol Hra Hdec Hr Hd Ht) in H.
  destruct (SkyCoord_new (mkQuantity ra deg) (mkQuantity dec deg))
    as [coord|e] eqn:Hnew.
  - destruct r as [R|].
    + exists ra, dec, R, dm, tol, coord.
      assert (HR : required args "radius" R).
      { unfold optional in Hr. unfold required.
        destruct (lookup "radius" args) as [sr|]; [|discriminate].
        exists sr. split; [reflexivity | apply Hr]. }
      repeat (split; [assumption|]).
      cbn [fst API_radius] in H.
      destruct (Matcher.search coord (mkQuantity R deg) dm
                  (Some (API_dmtol tol))) as [rows'|]; [|discriminate].
      congruence.
    + discriminate.
  - destruct (is_a (kind e) ValueError); discriminate.
Qed.

End API_facts.

(** ** Comparison of floats *)

Lemma SFcompare_swap x y :
  SFcompare y x = option_map CompOpp (SFcompare x y).
Proof.
  destruct x as [sx|sx| |sx mx ex], y as [sy|sy| |sy my ey]; simpl;
    try reflexivity;
    try (destruct sx; reflexivity);
    try (destruct sy; reflexivity);
    try (destruct sx, sy; reflexivity).
  destruct sx, sy; try reflexivity;
    rewrite (Z.compare_antisym ey ex);
    destruct (ey ?= ex)%Z; simpl; try reflexivity;
    fold (Pos.compare my mx); fold (Pos.compare mx my);
    rewrite (Pos.compare_antisym my mx);
    destruct (my ?= mx)%positive; reflexivity.
Qed.

(** A float that is at most [R] is not greater than [R]. *)
Lemma leb_not_gt x R :
  PrimFloat.leb x R = true -> PrimFloat.ltb R x = false.
Proof.
  rewrite leb_spec, ltb_spec. unfold SFleb, SFltb.
  rewrite (SFcompare_swap (Prim2SF x) (Prim2SF R)).
  destruct (SFcompare (Prim2SF x) (Prim2SF R)) as [[ | | ]|]; simpl; congruence.
Qed.

(** ** The matcher's results *)

Section Matcher_facts.
Context {E : Externals}.

Lemma In_insert_by_separation r x l :
  In r (Matcher.insert_by_separation x l) <-> r = x \/ In r l.
Proof.
  induction l as [|y l IH]; simpl.
  - intuition congruence.
  - destruct (PrimFloat.leb (snd x) (snd y)); simpl.
    + intuition congruence.
    + rewrite IH. intuition congruence.
Qed.

Lemma In_sort_by_separation r l :
  In r (Matcher.sort_by_separation l) <-> In r l.
Proof.
  induction l as [|x l IH]; simpl.
  - tauto.
  - rewrite In_insert_by_separation, IH. intuition congruence.
Qed.

Lemma In_hits r coord R dm tol :
  In r (Matcher.hits coord R dm tol) ->
  In (fst r) pulsar_table
  /\ snd r = separation coord (position (fst r))
  /\ PrimFloat.leb (snd r) R = true.
Proof.
  unfold Matcher.hits. rewrite filter_In, in_map_iff.
  intros [(e & <- & He) Hf]. simpl.
  apply andb_prop in Hf. destruct Hf as [Hw _].
  unfold Matcher.within_radius in Hw. simpl in Hw. auto.
Qed.

(** A radius in degrees is always searched, and every row of the result
    lies within it. *)
Lemma search_within coord R dm tol :
  exists rows,
    Matcher.search coord (mkQuantity R deg) dm tol = Return rows
    /\ within coord R rows.
Proof.
  exists (Matcher.sort_by_separation (Matcher.hits coord R dm tol)).
  split; [reflexivity|]. split.
  - intros r Hr. apply (proj1 (In_sort_by_separation _ _)) in Hr.
    now apply In_hits in Hr.
  - intros e s He Hgt Hin. apply (proj1 (In_sort_by_separation _ _)) in Hin.
    apply In_hits in Hin. simpl in Hin. destruct Hin as (_ & -> & Hle).
    apply leb_not_gt in Hle. congruence.
Qed.

(** Without a DM centre the tolerance plays no part. *)
Lemma search_without_dm coord radius tol tol' :
  Matcher.search coord radius None tol = Matcher.search coord radius None tol'.
Proof. reflexivity. Qed.

End Matcher_facts.

(** ** The search form route *)

Section Search_facts.
Context {E : Externals}.

Ltac run_search :=
  cbn -[append Matcher.search Matcher.sort_by_separation Matcher.hits
        link_surveys to_html to_pandas format_f List.length].

(** The tabular path: one search, then the page. *)
Lemma Search_html_run form coord R :
  SearchForm_validate_on_submit form = true ->
  parse_equcoord_and_validate (SearchForm.coordinates form) = Return coord ->
  SearchForm.radius form = Some R ->
  SearchForm.api form = false -> SearchForm.clear form = false ->
  exists cs,
    run (Search form) =
    (Return
       (render_search form Surveys
          (Some (mkPage cs
             (List.length
                (Matcher.sort_by_separation
                   (Matcher.hits coord R (SearchForm.dm form)
                      (option_map PyFloat (Search_DMtol form)))))
             (link_surveys Surveys
                (to_html search_formatters
                   (to_pandas
                      (Matcher.sort_by_separation
                         (Matcher.hits coord R (SearchForm.dm form)
                            (option_map PyFloat (Search_DMtol form)))))))))),
     [search_call coord (mkQuantity R deg) (SearchForm.dm form)
        (option_map PyFloat (Search_DMtol form)) false]).
Proof.
  intros Hv Hp Hr Ha Hc. unfold Search, Search_DMtol. unfold_py.
  rewrite Hv, Hp, Ha, Hc, Hr.
  destruct (SearchForm.dm form) as [d|], (SearchForm.dmtol form) as [t|];
    run_search; eexists; reflexivity.
Qed.

(** The "as API" path: a redirect, and no search. *)
Lemma Search_api_run form coord R :
  SearchForm_validate_on_submit form = true ->
  parse_equcoord_and_validate (SearchForm.coordinates form) = Return coord ->
  SearchForm.radius form = Some R ->
  SearchForm.api form = true ->
  run (Search form) = (Return (redirect ("API", API_values form coord R)), []).
Proof.
  intros Hv Hp Hr Ha. unfold Search, API_values, Search_DMtol. unfold_py.
  rewrite Hv, Hp, Ha, Hr.
  destruct (SearchForm.dm form) as [d|], (SearchForm.dmtol form) as [t|];
    reflexivity.
Qed.

(** The "clear" path of a valid submission: a redirect, and no search. *)
Lemma Search_clear_run form coord :
  SearchForm_validate_on_submit form = true ->
  parse_equcoord_and_validate (SearchForm.coordinates form) = Return coord ->
  SearchForm.api form = false -> SearchForm.clear form = true ->
  run (Search form) = (Return (redirect ("Search", [])), []).
Proof.
  intros Hv Hp Ha Hc. unfold Search. unfold_py.
  rewrite Hv, Hp, Ha, Hc. reflexivity.
Qed.

(** [Search] renders a result page only on the tabular path. *)
Lemma Search_returns_page form form' surveys page :
  fst (run (Search form)) = Return (render_search form' surveys (Some page)) ->
  exists coord R,
    SearchForm_validate_on_submit form = true
    /\ parse_equcoord_and_validate (SearchForm.coordinates form)
       = Return coord
    /\ SearchForm.radius form = Some R
    /\ SearchForm.api form = false /\ SearchForm.clear form = false.
Proof.
  unfold Search. unfold_py.
  destruct (SearchForm_validate_on_submit form);
    [|destruct (SearchForm.clear form); discriminate].
  destruct (parse_equcoord_and_validate (SearchForm.coordinates form))
    as [coord|e]; [|discriminate].
  destruct (SearchForm.api form).
  - destruct (SearchForm.dm form), (SearchForm.radius form); discriminate.
  - destruct (SearchForm.clear form); [discriminate|].
    destruct (SearchForm.radius form) as [R|]; [|discriminate].
    intros _. exists coord, R. auto.
Qed.

(** A rendered result page shows the matcher's rows for the parsed
    coordinate and the radius of the form. *)
Lemma Search_page form form' surveys page :
  fst (run (Search form)) = Return (render_search form' surveys (Some page)) ->
  exists coord R rows,
    parse_equcoord_and_validate (SearchForm.coordinates form) = Return coord
    /\ SearchForm.radius form = Some R
    /\ Matcher.search coord (mkQuantity R deg) (SearchForm.dm form)
         (option_map PyFloat (Search_DMtol form)) = Return rows
    /\ nfound page = List.length rows
    /\ html_table page
       = link_surveys Surveys (to_html search_formatters (to_pandas rows)).
Proof.
  intros H.
  destruct (Search_returns_page _ _ _ _ H)
    as (coord & R & Hv & Hp & Hr & Ha & Hc).
  destruct (Search_html_run form coord R Hv Hp Hr Ha Hc) as [cs Hrun].
  rewrite Hrun in H. cbn [fst] in H. injection H as _ _ <-.
  exists coord, R. eexists. repeat split; try eassumption; reflexivity.
Qed.

(** C3 -- When the DM-tolerance field is empty, the tolerance [Search] uses
    is the value of the DM field: the search is called with the DM field
    as its tolerance (absent when the DM is absent, the DM itself when it
    is present), and the redirect of the "as API" path carries the DM as
    [dmtol]. *)
Theorem Search_empty_dmtol_is_dm form coord R :
  SearchForm_validate_on_submit form = true ->
  parse_equcoord_and_validate (SearchForm.coordinates form) = Return coord ->
  SearchForm.radius form = Some R ->
  SearchForm.dmtol form = None ->
  (SearchForm.api form = false -> SearchForm.clear form = false ->
   snd (run (Search form)) =
   [search_call coord (mkQuantity R deg) (SearchForm.dm form)
      (option_map PyFloat (SearchForm.dm form)) false])
  /\ (SearchForm.api form = true ->
      forall d, SearchForm.dm form = Some d ->
      fst (run (Search form)) =
      Return (redirect ("API", [("ra", str_of_float (ra_deg coord));
                                ("dec", str_of_float (dec_deg coord));
                                ("radius", str_of_float R);
                                ("dm", str_of_float d);
                                ("dmtol", str_of_float d)]))).
Proof.
  intros Hv Hp Hr Ht. split.
  - intros Ha Hc.
    destruct (Search_html_run form coord R Hv Hp Hr Ha Hc) as [cs Hrun].
    rewrite Hrun. unfold Search_DMtol. rewrite Ht. reflexivity.
  - intros Ha d Hd. rewrite (Search_api_run form coord R Hv Hp Hr Ha).
    unfold API_values, Search_DMtol. rewrite Ht, Hd. reflexivity.
Qed.

End Search_facts.

(** ** Search results of the two routes *)

Section Query_facts.
Context {E : Externals}.

Lemma required_optional args k x :
  required args k x -> optional args k (Some x).
Proof.
  intros (s & Hs & Ps). unfold optional. rewrite Hs.
  split; [discriminate | assumption].
Qed.

(** C1 -- Every search issued with a radius of [R] degrees, through the
    search form or through the API route, returns rows that are catalog
    entries with a separation from the query centre of at most [R], and no
    catalog entry with a separation greater than [R] is among them: a valid
    submission on the tabular path and a request with readable parameters
    and a radius do return such rows, and whenever either route returns
    rows they are such rows for the radius that was given. *)
Theorem search_results_within_radius :
  (forall form coord R,
      SearchForm_validate_on_submit form = true ->
      parse_equcoord_and_validate (SearchForm.coordinates form)
      = Return coord ->
      SearchForm.radius form = Some R ->
      SearchForm.api form = false -> SearchForm.clear form = false ->
      exists rows cs,
        run (Search form) =
        (Return
           (render_search form Surveys
              (Some (mkPage cs (List.length rows)
                       (link_surveys Surveys
                          (to_html search_formatters (to_pandas rows)))))),
         [search_call coord (mkQuantity R deg) (SearchForm.dm form)
            (option_map PyFloat (Search_DMtol form)) false])
        /\ Matcher.search coord (mkQuantity R deg) (SearchForm.dm form)
             (option_map PyFloat (Search_DMtol form)) = Return rows
        /\ within coord R rows)
  /\ (forall args ra dec R dm tol coord,
         required args "ra" ra -> required args "dec" dec ->
         required args "radius" R ->
         optional args "dm" dm -> optional args "dmtol" tol ->
         SkyCoord_new (mkQuantity ra deg) (mkQuantity dec deg)
         = Return coord ->
         exists rows,
           run (API args) =
           (Return (json rows),
            [search_call coord (mkQuantity R deg) dm (Some (API_dmtol tol))
               true])
           /\ Matcher.search coord (mkQuantity R deg) dm
                (Some (API_dmtol tol)) = Return rows
           /\ within coord R rows)
  /\ (forall form form' surveys page,
         fst (run (Search form))
         = Return (render_search form' surveys (Some page)) ->
         exists coord R rows,
           parse_equcoord_and_validate (SearchForm.coordinates form)
           = Return coord
           /\ SearchForm.radius form = Some R
           /\ nfound page = List.length rows
           /\ html_table page
              = link_surveys Surveys
                  (to_html search_formatters (to_pandas rows))
           /\ within coord R rows)
  /\ (forall args rows,
         fst (run (API args)) = Return (json rows) ->
         exists ra dec R coord,
           required args "ra" ra /\ required args "dec" dec
           /\ required args "radius" R
           /\ SkyCoord_new (mkQuantity ra deg) (mkQuantity dec deg)
              = Return coord
           /\ within coord R rows).
Proof.
  assert (Hform : forall form coord R,
      SearchForm_validate_on_submit form = true ->
      parse_equcoord_and_validate (SearchForm.coordinates form)
      = Return coord ->
      SearchForm.radius form = Some R ->
      SearchForm.api form = false -> SearchForm.clear form = false ->
      exists rows cs,
        run (Search form) =
        (Return
           (render_search form Surveys
              (Some (mkPage cs (List.length rows)
                       (link_surveys Surveys
                          (to_html search_formatters (to_pandas rows)))))),
         [search_call coord (mkQuantity R deg) (SearchForm.dm form)
            (option_map PyFloat (Search_DMtol form)) false])
        /\ Matcher.search coord (mkQuantity R deg) (SearchForm.dm form)
             (option_map PyFloat (Search_DMtol form)) = Return rows
        /\ within coord R rows).
  { intros form coord R Hv Hp Hr Ha Hc.
    destruct (Search_html_run form coord R Hv Hp Hr Ha Hc) as [cs Hrun].
    destruct (search_within coord R (SearchForm.dm form)
                (option_map PyFloat (Search_DMtol form)))
      as (rows & Hs & Hw).
    exists rows, cs. injection Hs as <-. auto. }
  split; [exact Hform|]. split; [|split].
  - intros args ra dec R dm tol coord Hra Hdec HR Hdm Htol Hc.
    destruct (search_within coord R dm (Some (API_dmtol tol)))
      as (rows & Hs & Hw).
    exists rows. split; [|auto].
    rewrite (API_run args ra dec (Some R) dm tol Hra Hdec
               (required_optional _ _ _ HR) Hdm Htol), Hc.
    unfold API_radius. rewrite Hs. reflexivity.
  - intros form form' surveys page H.
    destruct (Search_page _ _ _ _ H)
      as (coord & R & rows & Hp & Hr & Hs & Hn & Ht).
    exists coord, R, rows. repeat (split; [assumption|]).
    destruct (search_within coord R (SearchForm.dm form)
                (option_map PyFloat (Search_DMtol form)))
      as (rows' & Hs' & Hw).
    congruence.
  - intros args rows H.
    destruct (API_returns_rows args rows H)
      as (ra & dec & R & dm & tol & coord & Hra & Hdec & HR & _ & _ & Hc & Hs).
    exists ra, dec, R, coord. repeat (split; [assumption|]).
    destruct (search_within coord R dm (Some (API_dmtol tol)))
      as (rows' & Hs' & Hw).
    congruence.
Qed.

(** C4 -- A valid submission of the search form with the "as API" button
    is answered by a redirect to the API route and renders nothing.  The
    redirect carries [ra] and [dec] in degrees and the radius, and [dm]
    with [dmtol] exactly when a DM was given; provided this text reads back
    as the floats it was written from and the coordinate is rebuilt from
    its degrees, the API route answering the redirect returns the rows that
    the tabular path shows for the same inputs, searched with the same
    centre, radius and DM (and tolerance, when a DM was given). *)
Theorem Search_api_redirect_same_search form form' coord R :
  SearchForm_validate_on_submit form = true ->
  parse_equcoord_and_validate (SearchForm.coordinates form) = Return coord ->
  SearchForm.radius form = Some R ->
  SearchForm.api form = true ->
  SearchForm_validate_on_submit form' = true ->
  same_inputs form form' ->
  SearchForm.api form' = false -> SearchForm.clear form' = false ->
  (forall x, In x ([ra_deg coord; dec_deg coord; R]
                   ++ present (SearchForm.dm form)
                   ++ present (SearchForm.dmtol form))%list ->
             roundtrips x) ->
  SkyCoord_new (mkQuantity (ra_deg coord) deg) (mkQuantity (dec_deg coord) deg)
  = Return coord ->
  exists rows cs tolA tolH,
    run (Search form) = (Return (redirect ("API", API_values form coord R)), [])
    /\ map fst (API_values form coord R)
       = (["ra"; "dec"; "radius"]
          ++ match SearchForm.dm form with
             | Some _ => ["dm"; "dmtol"]
             | None => []
             end)%list
    /\ run (API (API_values form coord R)) =
       (Return (json rows),
        [search_call coord (mkQuantity R deg) (SearchForm.dm form) tolA true])
    /\ run (Search form') =
       (Return
          (render_search form' Surveys
             (Some (mkPage cs (List.length rows)
                      (link_surveys Surveys
                         (to_html search_formatters (to_pandas rows)))))),
        [search_call coord (mkQuantity R deg) (SearchForm.dm form) tolH false])
    /\ Matcher.search coord (mkQuantity R deg) (SearchForm.dm form) tolA
       = Return rows
    /\ Matcher.search coord (mkQuantity R deg) (SearchForm.dm form) tolH
       = Return rows
    /\ (SearchForm.dm form <> None -> tolA = tolH).
Proof.
  intros Hv Hp Hr Ha Hv' (Ec & Er & Ed & Et) Ha' Hc' Hrt Hnew.
  rewrite Ec in Hp. rewrite Er in Hr.
  destruct (Search_html_run form' coord R Hv' Hp Hr Ha' Hc') as [cs Hrun'].
  rewrite <- Ec in Hp. rewrite <- Er in Hr.
  assert (Hra : roundtrips (ra_deg coord)) by (apply Hrt; simpl; auto).
  assert (Hdec : roundtrips (dec_deg coord)) by (apply Hrt; simpl; auto).
  assert (HR : roundtrips R) by (apply Hrt; simpl; auto).
  assert (Hd : forall d, SearchForm.dm form = Some d -> roundtrips d).
  { intros d Hd. apply Hrt. rewrite Hd. simpl. auto. }
  assert (Ht : forall t, SearchForm.dmtol form = Some t -> roundtrips t).
  { intros t Ht. apply Hrt. rewrite Ht. apply in_or_app. right.
    apply in_or_app. right. simpl. auto. }
  unfold roundtrips in *.
  pose proof (Search_api_run form coord R Hv Hp Hr Ha) as Hrun.
  unfold Search_DMtol in Hrun'. rewrite <- Ed, <- Et in Hrun'.
  unfold API_values, Search_DMtol in *.
  destruct (SearchForm.dm form) as [d|] eqn:Edm.
  - set (t := match SearchForm.dmtol form with Some t => t | None => d end).
    assert (Etol : match SearchForm.dmtol form with
                   | Some t0 => Some t0
                   | None => Some d
                   end = Some t)
      by (unfold t; destruct (SearchForm.dmtol form); reflexivity).
    assert (Rt : float_of_str (str_of_float t) = Some t).
    { unfold t. destruct (SearchForm.dmtol form) as [t0|] eqn:Et0;
        [now apply Ht | now apply Hd]. }
    rewrite Etol in *.
    eexists _, cs, (Some (PyFloat t)), (Some (PyFloat t)).
    split; [exact Hrun|]. split; [reflexivity|].
    split; [|split; [exact Hrun'|repeat split; reflexivity]].
    rewrite (API_run _ (ra_deg coord) (dec_deg coord) (Some R) (Some d)
               (Some t)).
    + rewrite Hnew. reflexivity.
    + eexists; split; [reflexivity | assumption].
    + eexists; split; [reflexivity | assumption].
    + unfold optional. simpl. split; [discriminate | assumption].
    + unfold optional. simpl. split; [discriminate | now apply Hd].
    + unfold optional. simpl. split; [discriminate | assumption].
  - eexists _, cs, (Some (PyInt 10)), _.
    split; [exact Hrun|]. split; [reflexivity|].
    split; [|split; [exact Hrun'|]].
    + rewrite (API_run _ (ra_deg coord) (dec_deg coord) (Some R) None None).
      * rewrite Hnew. reflexivity.
      * eexists; split; [reflexivity | assumption].
      * eexists; split; [reflexivity | assumption].
      * unfold optional. simpl. split; [discriminate | assumption].
      * reflexivity.
      * reflexivity.
    + split; [reflexivity|]. split; [reflexivity | congruence].
Qed.

End Query_facts.

(** ** The compute form route *)

Section Compute_facts.
Context {E : Externals}.

Ltac run_compute :=
  cbn -[append format_f dm_to_dist dist_to_dm label_after_loop].

Ltac with_coordinate Hc :=
  destruct Hc as [[Hsel Hc]|[Hsel Hc]]; rewrite Hsel, Hc.

(** C7 -- A valid compute submission takes the galactic longitude and
    latitude of the parsed coordinate and dispatches on the solve selector:
    from a DM it calls [dm_to_dist] with the input DM, from a distance it
    calls [dist_to_dm] with the input distance in parsecs, each with the
    chosen model name unchanged.  The page it then renders (when the clear
    button was not pressed) consists of the coordinate string and of a
    result string that shows the input and the first component of what the
    library returned, to one decimal; the second component is dropped:
    neither string depends on it. *)
Theorem Compute_dispatch form c x :
  DMForm_validate_on_submit form = true ->
  parsed_coordinate form c ->
  DMForm.d_or_dm form = Some x ->
  (DMForm.d_or_dm_selector form = "dm" ->
   forall distance extra,
     dm_to_dist (galactic_l c) (galactic_b c) x (DMForm.model_selector form)
     = Return (distance, extra) ->
     snd (run (Compute form)) =
     [dm_to_dist_call (galactic_l c) (galactic_b c) x
        (DMForm.model_selector form)]
     /\ (DMForm.clear form = false -> unit distance = pc ->
         fst (run (Compute form)) =
         Return (render_compute form
                   (Some (Compute_coord_string form c,
                          "For DM = " ++ format_f 1 x
                          ++ " pc/cc, find distance = "
                          ++ format_f 1 (value distance) ++ " pc")))))
  /\ (DMForm.d_or_dm_selector form = "distance" ->
      forall DM extra,
        dist_to_dm (galactic_l c) (galactic_b c) (mkQuantity x pc)
          (DMForm.model_selector form) = Return (DM, extra) ->
        snd (run (Compute form)) =
        [dist_to_dm_call (galactic_l c) (galactic_b c) (mkQuantity x pc)
           (DMForm.model_selector form)]
        /\ (DMForm.clear form = false ->
            forall label,
              label_after_loop (DMForm.model_choices form)
                (DMForm.model_selector form) None = Some label ->
              fst (run (Compute form)) =
              Return (render_compute form
                        (Some (Compute_coord_string form c,
                               "For distance = " ++ format_f 1 x
                               ++ " pc, find DM = "
                               ++ format_f 1 (value DM)
                               ++ " pc/cc with the " ++ label
                               ++ " model"))))).
Proof.
  intros Hv Hc Hx. split.
  - intros Hd distance extra Hlib. split.
    + unfold Compute, to_unit. unfold_py. rewrite Hv, Hd, Hx.
      with_coordinate Hc; run_compute; rewrite Hlib; run_compute;
        destruct (DMForm.clear form); [reflexivity| |reflexivity|];
        run_compute;
        destruct (unit_eqb (unit distance) pc); reflexivity.
    + intros Hclear Hu.
      unfold Compute, Compute_coord_string, to_unit. unfold_py.
      rewrite Hv, Hd, Hx, Hclear.
      with_coordinate Hc; run_compute; rewrite Hlib; run_compute;
        rewrite Hu; reflexivity.
  - intros Hd DM extra Hlib. split.
    + unfold Compute, to_unit. unfold_py. rewrite Hv, Hd, Hx.
      with_coordinate Hc; run_compute; rewrite Hlib; run_compute;
        destruct (DMForm.clear form); [reflexivity| |reflexivity|];
        destruct (label_after_loop (DMForm.model_choices form)
                    (DMForm.model_selector form) None); reflexivity.
    + intros Hclear label Hl.
      unfold Compute, Compute_coord_string, to_unit. unfold_py.
      rewrite Hv, Hd, Hx, Hclear.
      with_coordinate Hc; run_compute; rewrite Hlib; run_compute;
        rewrite Hl; reflexivity.
Qed.

(** C10 -- A valid compute submission with the clear button still calls the
    model library, once, before it answers with a redirect to the compute
    route that carries nothing of the result; a valid search submission
    with the clear button and without the API button is answered by a
    redirect without any call to the catalog. *)
Theorem clear_after_conversion_before_search :
  (forall form c x,
      DMForm_validate_on_submit form = true ->
      parsed_coordinate form c ->
      DMForm.d_or_dm form = Some x ->
      DMForm.clear form = true ->
      (DMForm.d_or_dm_selector form = "dm" ->
       snd (run (Compute form)) =
       [dm_to_dist_call (galactic_l c) (galactic_b c) x
          (DMForm.model_selector form)]
       /\ forall r,
           dm_to_dist (galactic_l c) (galactic_b c) x
             (DMForm.model_selector form) = Return r ->
           fst (run (Compute form)) = Return (redirect ("Compute", [])))
      /\ (DMForm.d_or_dm_selector form = "distance" ->
          snd (run (Compute form)) =
          [dist_to_dm_call (galactic_l c) (galactic_b c) (mkQuantity x pc)
             (DMForm.model_selector form)]
          /\ forall r,
              dist_to_dm (galactic_l c) (galactic_b c) (mkQuantity x pc)
                (DMForm.model_selector form) = Return r ->
              fst (run (Compute form)) = Return (redirect ("Compute", []))))
  /\ (forall form coord,
         SearchForm_validate_on_submit form = true ->
         parse_equcoord_and_validate (SearchForm.coordinates form)
         = Return coord ->
         SearchForm.api form = false -> SearchForm.clear form = true ->
         run (Search form) = (Return (redirect ("Search", [])), [])).
Proof.
  split.
  - intros form c x Hv Hc Hx Hclear. split; intros Hd.
    + split.
      * unfold Compute. unfold_py. rewrite Hv, Hd, Hx, Hclear.
        with_coordinate Hc; run_compute;
          destruct (dm_to_dist _ _ _ _) as [[d e]|e]; reflexivity.
      * intros [d e] Hlib. unfold Compute. unfold_py.
        rewrite Hv, Hd, Hx, Hclear.
        with_coordinate Hc; run_compute; rewrite Hlib; reflexivity.
    + split.
      * unfold Compute. unfold_py. rewrite Hv, Hd, Hx, Hclear.
        with_coordinate Hc; run_compute;
          destruct (dist_to_dm _ _ _ _) as [[d e]|e]; reflexivity.
      * intros [d e] Hlib. unfold Compute. unfold_py.
        rewrite Hv, Hd, Hx, Hclear.
        with_coordinate Hc; run_compute; rewrite Hlib; reflexivity.
  - intros form coord. apply Search_clear_run.
Qed.

End Compute_facts.

(** ** Fixed-point text *)

Lemma is_digit_digit_char d :
  (0 <= d < 10)%Z -> is_digit (digit_char d) = true.
Proof.
  intros Hd. unfold digit_char.
  assert (Hn : (Z.to_nat d < 10)%nat) by lia.
  revert Hn. generalize (Z.to_nat d). intros n Hn.
  do 10 (destruct n as [|n]; [reflexivity|]). lia.
Qed.

Lemma all_digits_app a b :
  all_digits (a ++ b) = all_digits a && all_digits b.
Proof.
  induction a as [|c a IH]; simpl; [reflexivity|].
  rewrite IH. now rewrite andb_assoc.
Qed.

Lemma length_app a b : length (a ++ b) = (length a + length b)%nat.
Proof. induction a as [|c a IH]; simpl; [reflexivity | now rewrite IH]. Qed.

Lemma all_digits_frac_digits k n : all_digits (frac_digits k n) = true.
Proof.
  revert n. induction k as [|k IH]; intros n; cbn [frac_digits];
    [reflexivity|].
  rewrite all_digits_app, IH. cbn [all_digits andb].
  rewrite is_digit_digit_char; [reflexivity|].
  apply Z.mod_pos_bound. lia.
Qed.

Lemma length_frac_digits k n : length (frac_digits k n) = k.
Proof.
  revert n. induction k as [|k IH]; intros n; cbn [frac_digits];
    [reflexivity|].
  rewrite length_app, IH. cbn [length]. lia.
Qed.

Lemma all_digits_string_of_uint u :
  all_digits (NilEmpty.string_of_uint u) = true.
Proof. induction u; simpl; auto. Qed.

Lemma string_of_uint_nonempty u :
  u <> Decimal.Nil -> NilEmpty.string_of_uint u <> "".
Proof. destruct u; simpl; congruence. Qed.

Lemma Z_digits_digits n : all_digits (Z_digits n) = true.
Proof. apply all_digits_string_of_uint. Qed.

Lemma Z_digits_nonempty n : Z_digits n <> "".
Proof.
  unfold Z_digits. apply string_of_uint_nonempty.
  destruct (Z.to_N n) as [|p]; simpl.
  - discriminate.
  - apply DecimalPos.Unsigned.to_uint_nonnil.
Qed.

Lemma split_dot_digits a b :
  all_digits a = true -> split_dot (a ++ String "." b) = Some (a, b).
Proof.
  induction a as [|c a IH]; simpl; intros Ha; [reflexivity|].
  apply andb_prop in Ha. destruct Ha as [Hc Ha].
  destruct (Ascii.eqb c ".") eqn:Ec.
  - apply Ascii.eqb_eq in Ec. subst c. discriminate.
  - rewrite (IH Ha). reflexivity.
Qed.

(** A sign and a fixed-point rendering with at least one decimal form
    fixed-point notation. *)
Lemma fixed_decimal_fixed_text s p n :
  fixed_decimal (S p) (sign_text s ++ fixed_text (S p) n) = true.
Proof.
  unfold fixed_decimal, fixed_text.
  pose proof (Z_digits_digits (n / 10 ^ Z.of_nat (S p))) as Hd.
  pose proof (Z_digits_nonempty (n / 10 ^ Z.of_nat (S p))) as Hn.
  set (a := Z_digits (n / 10 ^ Z.of_nat (S p))) in *.
  set (b := frac_digits (S p) n).
  assert (Hbody : match sign_text s ++ a ++ "." ++ b with
                  | String "-"%char r => r
                  | _ => sign_text s ++ a ++ "." ++ b
                  end = a ++ "." ++ b).
  { destruct s; simpl; [reflexivity|].
    destruct a as [|c a']; [congruence|]. simpl in *.
    apply andb_prop in Hd. destruct Hd as [Hc _].
    destruct (Ascii.eqb c "-") eqn:Ec.
    - apply Ascii.eqb_eq in Ec. subst c. discriminate.
    - destruct c as [[] [] [] [] [] [] [] []]; try reflexivity; discriminate. }
  rewrite Hbody. change ("." ++ b) with (String "."%char b).
  rewrite (split_dot_digits a b Hd), Hd.
  unfold b. rewrite all_digits_frac_digits, length_frac_digits, Nat.eqb_refl.
  destruct a; [congruence | reflexivity].
Qed.

(** ["%.2f"] of a number is in two-decimal notation. *)
Lemma format_f_fixed_decimal p x :
  finite x = true -> fixed_decimal (S p) (format_f (S p) x) = true.
Proof.
  unfold finite, format_f.
  destruct (Prim2SF x) as [s|s| |s m e]; intros H; try discriminate;
    apply fixed_decimal_fixed_text.
Qed.

(** ** The table of the search page *)

Section Table_facts.
Context {E : Externals}.

Lemma rendered_rows_texts rows : rendered_rows rows = map row_texts rows.
Proof.
  unfold rendered_rows, to_pandas. simpl. rewrite map_map. reflexivity.
Qed.

Lemma format_f_not_finite p x :
  finite x = false -> In (format_f p x) ["nan"; "inf"; "-inf"].
Proof.
  unfold finite, format_f.
  destruct (Prim2SF x) as [s|[|]| |s m e]; intros H; try discriminate;
    simpl; auto.
Qed.

Lemma format_f_infinite p x :
  finite x = false -> float_is_nan x = false ->
  In (format_f p x) ["inf"; "-inf"].
Proof.
  unfold finite, float_is_nan, format_f.
  destruct (Prim2SF x) as [s|[|]| |s m e]; intros Hf Hn;
    try discriminate; simpl; auto.
Qed.

Lemma finite_not_nan x : finite x = true -> float_is_nan x = false.
Proof.
  unfold finite, float_is_nan. destruct (Prim2SF x); congruence.
Qed.

(** C8 -- The table of a rendered search page is built, before the survey
    links are put in, from cell texts in which the period and the distance
    of every matched row are two-decimal cells: a value that is a number
    went through the two-decimal formatter and is in fixed notation with
    exactly two decimals; a value that is not a number is not formatted
    and is shown as [NaN]; an infinite value is shown as [inf] or
    [-inf]. *)
Theorem period_and_distance_two_decimals :
  (forall form form' surveys page,
      fst (run (Search form))
      = Return (render_search form' surveys (Some page)) ->
      exists rows,
        nfound page = List.length rows
        /\ html_table page
           = link_surveys Surveys
               (html_of_cells table_columns (map row_texts rows)))
  /\ (forall r : Matcher.Row,
         nth 4 table_columns "" = "P"
         /\ nth 4 (row_texts r) "" = two_decimal_cell (P (fst r))
         /\ nth 5 table_columns "" = "Distance"
         /\ nth 5 (row_texts r) "" = two_decimal_cell (Distance (fst r)))
  /\ (forall x,
         render_cell search_formatters "P" (float_cell x)
         = two_decimal_cell x
         /\ render_cell search_formatters "Distance" (float_cell x)
            = two_decimal_cell x
         /\ (finite x = true ->
             two_decimal_cell x = format_f 2 x
             /\ fixed_decimal 2 (two_decimal_cell x) = true)
         /\ (float_is_nan x = true -> two_decimal_cell x = "NaN")
         /\ (finite x = false -> float_is_nan x = false ->
             In (two_decimal_cell x) ["inf"; "-inf"])).
Proof.
  split; [|split].
  - intros form form' surveys page H.
    destruct (Search_page _ _ _ _ H) as (coord & R & rows & _ & _ & _ & Hn & Ht).
    exists rows. split; [assumption|]. rewrite Ht.
    unfold to_html. fold (rendered_rows rows).
    now rewrite rendered_rows_texts.
  - intros r. repeat split.
  - intros x. split; [reflexivity|]. split; [reflexivity|].
    unfold two_decimal_cell. split; [|split].
    + intros Hf. rewrite (finite_not_nan x Hf).
      split; [reflexivity | now apply format_f_fixed_decimal].
    + intros Hn. now rewrite Hn.
    + intros Hf Hn. rewrite Hn. now apply format_f_infinite.
Qed.

End Table_facts.

(** ** Replacing text *)

Lemma prefix_app a b : prefix a (a ++ b) = true.
Proof.
  induction a as [|c a IH]; simpl; [now destruct b|].
  destruct (ascii_dec c c); [assumption | congruence].
Qed.

Lemma prefix_split a s : prefix a s = true -> exists b, s = a ++ b.
Proof.
  revert s. induction a as [|c a IH]; intros s H.
  - exists s. reflexivity.
  - destruct s as [|d s]; simpl in H; [discriminate|].
    destruct (ascii_dec c d) as [->|]; [|discriminate].
    destruct (IH s H) as [b ->]. exists b. reflexivity.
Qed.

Lemma replace_from_skip old new a t :
  replace_from old new (length a) (a ++ t) = replace_from old new 0 t.
Proof.
  induction a as [|c a IH]; simpl; [|exact IH].
  destruct t; reflexivity.
Qed.

(** At an occurrence of [old] the replacement is written and the scan
    resumes behind the occurrence. *)
Lemma str_replace_hit old new t :
  old <> "" -> str_replace (old ++ t) old new = new ++ str_replace t old new.
Proof.
  destruct old as [|c old]; [congruence|]. intros _.
  unfold str_replace. cbn [append replace_from].
  change (String c (old ++ t)) with (String c old ++ t).
  rewrite prefix_app.
  replace (length (String c old) - 1)%nat with (length old)
    by (cbn [length]; lia).
  now rewrite replace_from_skip.
Qed.

(** Elsewhere the character is copied. *)
Lemma str_replace_copy old new c t :
  prefix old (String c t) = false ->
  str_replace (String c t) old new = String c (str_replace t old new).
Proof.
  destruct old as [|d old]; [discriminate|]. intros H.
  unfold str_replace. cbn [replace_from]. now rewrite H.
Qed.

Lemma str_replace_empty old new : old <> "" -> str_replace "" old new = "".
Proof. destruct old; [congruence | reflexivity]. Qed.

Lemma replaced_str_replace old new s :
  old <> "" -> replaced old new s (str_replace s old new).
Proof.
  intros Hold.
  assert (H : forall n s, (length s <= n)%nat ->
                          replaced old new s (str_replace s old new)).
  { induction n as [|n IH]; intros [|c t] Hlen; simpl in Hlen;
      try (rewrite str_replace_empty by assumption; constructor).
    - lia.
    - destruct (prefix old (String c t)) eqn:Hp.
      + destruct (prefix_split _ _ Hp) as [b Hb]. rewrite Hb.
        rewrite str_replace_hit by assumption.
        apply replaced_hit, IH.
        assert (Hl : length (String c t) = length (old ++ b)) by now rewrite Hb.
        rewrite length_app in Hl. simpl in Hl.
        destruct old as [|d old]; [congruence|]. simpl in Hl. lia.
      + rewrite str_replace_copy by assumption.
        apply replaced_copy; [assumption|]. apply IH. lia. }
  apply (H (length s)). lia.
Qed.

(** A text in which [old] does not occur is left as it is. *)
Lemma str_replace_absent old new s :
  contains old s = false -> str_replace s old new = s.
Proof.
  induction s as [|c t IH]; intros H.
  - destruct old; [discriminate | reflexivity].
  - cbn [contains] in H. apply orb_false_elim in H. destruct H as [Hp Ht].
    rewrite str_replace_copy by assumption. now rewrite IH.
Qed.

Lemma link_surveys_linked surveys html :
  (forall s, In s surveys -> fst s <> "") ->
  linked surveys html (link_surveys surveys html).
Proof.
  revert html. induction surveys as [|[name url] rest IH]; intros html Hne.
  - constructor.
  - simpl. econstructor.
    + apply replaced_str_replace. apply (Hne (name, url)). now left.
    + apply IH. intros s Hs. apply Hne. now right.
Qed.

Lemma link_surveys_absent surveys html :
  (forall s, In s surveys -> contains (fst s) html = false) ->
  link_surveys surveys html = html.
Proof.
  revert html. induction surveys as [|[name url] rest IH]; intros html Habs.
  - reflexivity.
  - simpl. rewrite str_replace_absent.
    + apply IH. intros s Hs. apply Habs. now right.
    + apply (Habs (name, url)). now left.
Qed.

Section Link_facts.
Context {E : Externals}.

(** C9 -- The table of a rendered search page is the table text in which
    the name of each survey of the survey table, taken in table order, was
    replaced by a link to that survey's site wherever the name occurred in
    the text, in whatever column, and every other character was copied; a
    table text in which no survey name occurs is shown as it is. *)
Theorem survey_names_replaced_by_links form form' surveys page :
  fst (run (Search form)) = Return (render_search form' surveys (Some page)) ->
  (forall s, In s Surveys -> fst s <> "") ->
  exists rows,
    nfound page = List.length rows
    /\ linked Surveys (to_html search_formatters (to_pandas rows))
         (html_table page)
    /\ ((forall s, In s Surveys ->
           contains (fst s) (to_html search_formatters (to_pandas rows))
           = false) ->
        html_table page = to_html search_formatters (to_pandas rows)).
Proof.
  intros H Hne.
  destruct (Search_page _ _ _ _ H) as (coord & R & rows & _ & _ & _ & Hn & Ht).
  exists rows. split; [assumption|]. rewrite Ht. split.
  - now apply link_surveys_linked.
  - apply link_surveys_absent.
Qed.

End Link_facts.

(** ** Further properties of the handlers *)

Section Route_facts.
Context {E : Externals}.

(** X1 -- [Search] calls the catalog at most once, and only for a valid
    submission with neither the API nor the clear button: every other
    submission is answered without any call. *)
Theorem Search_searches_only_for_the_table form :
  snd (run (Search form)) = []
  \/ exists coord R,
       SearchForm_validate_on_submit form = true
       /\ parse_equcoord_and_validate (SearchForm.coordinates form)
          = Return coord
       /\ SearchForm.radius form = Some R
       /\ SearchForm.api form = false /\ SearchForm.clear form = false
       /\ snd (run (Search form))
          = [search_call coord (mkQuantity R deg) (SearchForm.dm form)
               (option_map PyFloat (Search_DMtol form)) false].
Proof.
  destruct (SearchForm_validate_on_submit form) eqn:Hv.
  2: { left. unfold Search. unfold_py. rewrite Hv.
       destruct (SearchForm.clear form); reflexivity. }
  destruct (parse_equcoord_and_validate (SearchForm.coordinates form))
    as [coord|e] eqn:Hp.
  2: { left. unfold Search. unfold_py. rewrite Hv, Hp. reflexivity. }
  destruct (SearchForm.api form) eqn:Ha.
  { left. unfold Search. unfold_py. rewrite Hv, Hp, Ha.
    destruct (SearchForm.dm form), (SearchForm.radius form); reflexivity. }
  destruct (SearchForm.clear form) eqn:Hc.
  { left. now rewrite (Search_clear_run form coord Hv Hp Ha Hc). }
  destruct (SearchForm.radius form) as [R|] eqn:Hr.
  - right. exists coord, R.
    destruct (Search_html_run form coord R Hv Hp Hr Ha Hc) as [cs Hrun].
    rewrite Hrun. auto 10.
  - left. unfold Search. unfold_py. rewrite Hv, Hp, Ha, Hc, Hr. reflexivity.
Qed.

(** X2 -- A page that reports no pulsar found shows the table of an empty
    result: the header alone, with the survey links put in. *)
Theorem Search_page_without_match form form' surveys page :
  fst (run (Search form)) = Return (render_search form' surveys (Some page)) ->
  nfound page = 0%nat ->
  html_table page = link_surveys Surveys (html_of_cells table_columns []).
Proof.
  intros H Hn.
  destruct (Search_page _ _ _ _ H) as (coord & R & rows & _ & _ & _ & Hl & Ht).
  rewrite Hn in Hl. symmetry in Hl. apply length_zero_iff_nil in Hl.
  subst rows. exact Ht.
Qed.

(** X3 -- When the coordinate library rejects the pair [ra], [dec] with a
    [ValueError] or an exception of one of its subclasses, [API] answers
    with a message that echoes both values and the library's reason, and
    does not search; an exception that is no [ValueError] is passed on. *)
Theorem API_rejected_coordinate args ra dec r dm tol e :
  required args "ra" ra -> required args "dec" dec ->
  optional args "radius" r -> optional args "dm" dm ->
  optional args "dmtol" tol ->
  SkyCoord_new (mkQuantity ra deg) (mkQuantity dec deg) = Raise e ->
  (is_a (kind e) ValueError = true ->
   run (API args)
   = (Return (body ("Unable to parse RA,Dec = '" ++ str_of_float ra ++ ","
                    ++ str_of_float dec ++ "': " ++ message e)), []))
  /\ (is_a (kind e) ValueError = false -> run (API args) = (Raise e, []))
  /\ is_a UnitConversionError ValueError = true
  /\ is_a ValidationError ValueError = true
  /\ is_a TypeError ValueError = false.
Proof.
  intros Hra Hdec Hr Hdm Htol He.
  rewrite (API_run args ra dec r dm tol Hra Hdec Hr Hdm Htol), He.
  split; [|split; [|repeat split]]; intros Hk; now rewrite Hk.
Qed.

(** X4 -- [API] reads the five parameters [ra], [dec], [radius], [dm] and
    [dmtol] and nothing else of the request: two requests that agree on
    them (in the first value bound to each) are answered alike. *)
Theorem API_reads_five_parameters args args' :
  (forall k, In k ["ra"; "dec"; "radius"; "dm"; "dmtol"] ->
             lookup k args = lookup k args') ->
  run (API args) = run (API args').
Proof.
  intros H. unfold API.
  rewrite (H "ra"), (H "dec"), (H "radius"), (H "dm"), (H "dmtol")
    by (simpl; auto 6).
  reflexivity.
Qed.

(** X5 -- [API] answers with text or with rows, never with a redirect or
    a page.  A text answer comes without any call to the catalog, rows come
    from exactly one call, made with [return_json] set, and an exception
    leaves at most that one call behind. *)
Theorem API_answers_text_or_rows args :
  match run (API args) with
  | (Return (body _), log) => log = []
  | (Return (json _), log) =>
      exists coord q dm tol, log = [search_call coord q dm tol true]
  | (Return _, _) => False
  | (Raise _, log) =>
      log = []
      \/ exists coord q dm tol, log = [search_call coord q dm tol true]
  end.
Proof.
  unfold API. unfold_py.
  destruct (lookup "ra" args) as [sra|]; [|reflexivity].
  destruct (float_of_str sra) as [ra|]; [|cbn; auto].
  destruct (lookup "dec" args) as [sdec|]; [|reflexivity].
  destruct (float_of_str sdec) as [dec|]; [|cbn; auto].
  destruct (lookup "radius" args) as [sr|];
    [destruct (float_of_str sr) as [r|]; [|cbn; auto]|];
    (destruct (lookup "dm" args) as [sd|];
     [destruct (float_of_str sd) as [d|]; [|cbn; auto]|]);
    (destruct (lookup "dmtol" args) as [st|];
     [destruct (float_of_str st) as [t|]; [|cbn; auto]|]);
    cbn -[Matcher.search append];
    (destruct (SkyCoord_new (mkQuantity ra deg) (mkQuantity dec deg))
       as [coord|e]; cbn -[Matcher.search append];
     [ match goal with
       | |- context [Matcher.search ?c ?q ?d ?t] =>
           destruct (Matcher.search c q d t); cbn; eauto 8
       end
     | destruct (is_a (kind e) ValueError); cbn; auto ]).
Qed.

Ltac run_route :=
  cbn -[append format_f dm_to_dist dist_to_dm label_after_loop].

Ltac on_coordinate Hc :=
  destruct Hc as [[Hsel Hc]|[Hsel Hc]]; rewrite Hsel, Hc.

(** X6 -- [Compute] calls the model library at most once, and only for a
    valid submission whose coordinate parsed and whose input value is
    present: [dm_to_dist] when solving from a DM, [dist_to_dm] with the
    value in parsecs when solving from a distance, each on the galactic
    longitude and latitude and with the model of the form. *)
Theorem Compute_converts_at_most_once form :
  snd (run (Compute form)) = []
  \/ exists c x,
       DMForm_validate_on_submit form = true
       /\ parsed_coordinate form c
       /\ DMForm.d_or_dm form = Some x
       /\ ((DMForm.d_or_dm_selector form = "dm"
            /\ snd (run (Compute form))
               = [dm_to_dist_call (galactic_l c) (galactic_b c) x
                    (DMForm.model_selector form)])
           \/ (DMForm.d_or_dm_selector form = "distance"
               /\ snd (run (Compute form))
                  = [dist_to_dm_call (galactic_l c) (galactic_b c)
                       (mkQuantity x pc) (DMForm.model_selector form)])).
Proof.
  destruct (DMForm_validate_on_submit form) eqn:Hv.
  2: { left. unfold Compute. unfold_py. rewrite Hv.
       destruct (DMForm.clear form); reflexivity. }
  assert (Hcoord : (exists c, parsed_coordinate form c)
                   \/ snd (run (Compute form)) = []).
  { unfold parsed_coordinate.
    destruct (String.eqb (DMForm.lb_or_radec_selector form) "equatorial")
      eqn:He.
    - apply String.eqb_eq in He.
      destruct (parse_equcoord_and_validate (DMForm.coordinates form))
        as [c|e] eqn:Hp.
      + left. exists c. left. auto.
      + right. unfold Compute. unfold_py. rewrite Hv, He, Hp. reflexivity.
    - destruct (String.eqb (DMForm.lb_or_radec_selector form) "galactic")
        eqn:Hg.
      + apply String.eqb_eq in Hg.
        destruct (parse_galcoord_and_validate (DMForm.coordinates form))
          as [c|e] eqn:Hp.
        * left. exists c. right. auto.
        * right. unfold Compute. unfold_py. rewrite Hv, He, Hg, Hp.
          reflexivity.
      + right. unfold Compute. unfold_py. rewrite Hv, He, Hg.
        destruct (String.eqb (DMForm.d_or_dm_selector form) "dm");
          [destruct (DMForm.d_or_dm form); reflexivity|].
        destruct (String.eqb (DMForm.d_or_dm_selector form) "distance");
          [destruct (DMForm.d_or_dm form); reflexivity|].
        destruct (DMForm.clear form); reflexivity. }
  destruct Hcoord as [[c Hc]|Hnone]; [|now left].
  destruct (String.eqb (DMForm.d_or_dm_selector form) "dm") eqn:Hd.
  - apply String.eqb_eq in Hd.
    destruct (DMForm.d_or_dm form) as [x|] eqn:Hx.
    + right. exists c, x. repeat (split; [first [assumption | reflexivity]|]). left.
      split; [assumption|].
      unfold Compute. unfold_py. rewrite Hv, Hd, Hx.
      on_coordinate Hc; run_route;
        destruct (dm_to_dist _ _ _ _) as [[d e]|e]; try reflexivity;
        destruct (DMForm.clear form); try reflexivity;
        run_route; unfold to_unit;
        destruct (unit_eqb (unit d) pc); reflexivity.
    + left. unfold Compute. unfold_py. rewrite Hv, Hd, Hx.
      on_coordinate Hc; reflexivity.
  - destruct (String.eqb (DMForm.d_or_dm_selector form) "distance") eqn:Hs.
    + apply String.eqb_eq in Hs.
      destruct (DMForm.d_or_dm form) as [x|] eqn:Hx.
      * right. exists c, x. repeat (split; [first [assumption | reflexivity]|]). right.
        split; [assumption|].
        unfold Compute. unfold_py. rewrite Hv, Hs, Hx.
        on_coordinate Hc; run_route;
          destruct (dist_to_dm _ _ _ _) as [[d e]|e]; try reflexivity;
          destruct (DMForm.clear form); try reflexivity;
          destruct (label_after_loop (DMForm.model_choices form)
                      (DMForm.model_selector form) None); reflexivity.
      * left. unfold Compute. unfold_py. rewrite Hv, Hd, Hs, Hx.
        on_coordinate Hc; reflexivity.
    + left. unfold Compute. unfold_py. rewrite Hv, Hd, Hs.
      on_coordinate Hc; run_route;
        destruct (DMForm.clear form); reflexivity.
Qed.

(** X7 -- A solve selector that is neither "dm" nor "distance" makes
    [Compute] call nothing: with the clear button it redirects, and
    otherwise it fails on the result string that no branch has set. *)
Theorem Compute_unknown_solve_selector form c :
  DMForm_validate_on_submit form = true ->
  parsed_coordinate form c ->
  DMForm.d_or_dm_selector form <> "dm" ->
  DMForm.d_or_dm_selector form <> "distance" ->
  run (Compute form)
  = (if DMForm.clear form then Return (redirect ("Compute", []))
     else Raise (mkExn UnboundLocalError "result_string"), []).
Proof.
  intros Hv Hc Hd Hs.
  apply String.eqb_neq in Hd. apply String.eqb_neq in Hs.
  unfold Compute. unfold_py. rewrite Hv, Hd, Hs.
  on_coordinate Hc; run_route; destruct (DMForm.clear form); reflexivity.
Qed.

(** X8 -- A coordinate selector that is neither "equatorial" nor
    "galactic" leaves the coordinate unset: nothing is parsed or called,
    and [Compute] fails on the unset coordinate as soon as it solves or
    renders. *)
Theorem Compute_unknown_coordinate_selector form x :
  DMForm_validate_on_submit form = true ->
  DMForm.lb_or_radec_selector form <> "equatorial" ->
  DMForm.lb_or_radec_selector form <> "galactic" ->
  DMForm.d_or_dm form = Some x ->
  DMForm.d_or_dm_selector form = "dm"
  \/ DMForm.d_or_dm_selector form = "distance"
  \/ DMForm.clear form = false ->
  run (Compute form) = (Raise (mkExn UnboundLocalError "coord"), []).
Proof.
  intros Hv He Hg Hx Hsel.
  apply String.eqb_neq in He. apply String.eqb_neq in Hg.
  unfold Compute. unfold_py. rewrite Hv, He, Hg, Hx.
  destruct Hsel as [Hd|[Hd|Hc]].
  - rewrite Hd. reflexivity.
  - rewrite Hd. reflexivity.
  - rewrite Hc.
    destruct (String.eqb (DMForm.d_or_dm_selector form) "dm");
      [reflexivity|].
    destruct (String.eqb (DMForm.d_or_dm_selector form) "distance");
      reflexivity.
Qed.

(** X9 -- An exception of the model library ends [Compute] with that
    exception, after the one call, whether or not the clear button was
    pressed. *)
Theorem Compute_library_error_propagates form c x e :
  DMForm_validate_on_submit form = true ->
  parsed_coordinate form c ->
  DMForm.d_or_dm form = Some x ->
  (DMForm.d_or_dm_selector form = "dm" ->
   dm_to_dist (galactic_l c) (galactic_b c) x (DMForm.model_selector form)
   = Raise e ->
   run (Compute form)
   = (Raise e, [dm_to_dist_call (galactic_l c) (galactic_b c) x
                  (DMForm.model_selector form)]))
  /\ (DMForm.d_or_dm_selector form = "distance" ->
      dist_to_dm (galactic_l c) (galactic_b c) (mkQuantity x pc)
        (DMForm.model_selector form) = Raise e ->
      run (Compute form)
      = (Raise e, [dist_to_dm_call (galactic_l c) (galactic_b c)
                     (mkQuantity x pc) (DMForm.model_selector form)])).
Proof.
  intros Hv Hc Hx. split; intros Hd Hlib.
  - unfold Compute. unfold_py. rewrite Hv, Hd, Hx.
    on_coordinate Hc; run_route; rewrite Hlib; reflexivity.
  - unfold Compute. unfold_py. rewrite Hv, Hd, Hx.
    on_coordinate Hc; run_route; rewrite Hlib; reflexivity.
Qed.

End Route_facts.

Lemma last_cons_default {A} (a : A) l d : last (a :: l) d = last l a.
Proof.
  revert a d. induction l as [|b l IH]; intros a d; [reflexivity|].
  change (last (a :: b :: l) d) with (last (b :: l) d).
  now rewrite (IH b d), (IH b a).
Qed.

(** X10 -- The model label left by the loop over the choices is the label
    of the first choice whose model is the selected one; when no choice
    matches it is the label of the last choice, and the variable stays
    unset only when there are no choices. *)
Theorem model_label_first_match_or_last choices data :
  label_after_loop choices data None
  = match find (fun c => String.eqb (fst c) data) choices with
    | Some c => Some (snd c)
    | None => last (map (fun c => Some (snd c)) choices) None
    end.
Proof.
  generalize (@None string) as d.
  induction choices as [|[model label] rest IH]; intros d; simpl;
    [reflexivity|].
  destruct (String.eqb model data); [reflexivity|].
  rewrite IH.
  destruct (find (fun c => String.eqb (fst c) data) rest); [reflexivity|].
  change (match map (fun c : string * string => Some (snd c)) rest with
          | [] => Some label
          | _ :: _ => last (map (fun c : string * string => Some (snd c)) rest) d
          end)
    with (last (Some label :: map (fun c : string * string => Some (snd c)) rest) d).
  now rewrite last_cons_default.
Qed.

(** ** Further properties of the text operations *)

Lemma contains_of_prefix a s : prefix a s = true -> contains a s = true.
Proof. intros H. destruct s; simpl; simpl in H; rewrite H; reflexivity. Qed.

(** Where [old] occurred, [new] occurs after the replacement. *)
Lemma str_replace_contains_new old new s :
  old <> "" -> contains old s = true ->
  contains new (str_replace s old new) = true.
Proof.
  intros Hold. induction s as [|c t IH]; intros H.
  - destruct old; [congruence | discriminate].
  - destruct (prefix old (String c t)) eqn:Hp.
    + destruct (prefix_split _ _ Hp) as [b Hb]. rewrite Hb.
      rewrite str_replace_hit by assumption.
      apply contains_of_prefix, prefix_app.
    + cbn [contains] in H. rewrite Hp in H. cbn [orb] in H.
      rewrite str_replace_copy by assumption.
      cbn [contains]. rewrite (IH H). apply orb_true_r.
Qed.

(** X11 -- The link of the last survey of the table is in the linked text
    whenever that survey's name occurs in the text once the surveys before
    it have been linked. *)
Theorem last_survey_is_linked surveys name url html :
  name <> "" ->
  contains name (link_surveys surveys html) = true ->
  contains (survey_link url name)
    (link_surveys (surveys ++ [(name, url)]) html) = true.
Proof.
  intros Hname H. unfold link_surveys in *. rewrite fold_left_app.
  cbn [fold_left fst snd]. now apply str_replace_contains_new.
Qed.

Lemma round_half_even_nearest num den :
  (0 < den)%Z ->
  (Z.abs (2 * num - 2 * (round_half_even num den * den)) <= den)%Z.
Proof.
  intros Hden. unfold round_half_even. cbv zeta.
  pose proof (Z.div_mod num den ltac:(lia)) as Hdm.
  pose proof (Z.mod_pos_bound num den Hden) as Hb.
  set (q := (num / den)%Z) in *. set (r := (num mod den)%Z) in *.
  clearbody q r.
  assert (Hq : (2 * num = 2 * (q * den) + 2 * r)%Z) by lia.
  destruct (2 * r ?= den)%Z eqn:Hc.
  - apply Z.compare_eq in Hc. destruct (Z.even q); lia.
  - change (2 * r < den)%Z in Hc. lia.
  - change (2 * r > den)%Z in Hc. lia.
Qed.

(** [scaled p m e] is [m * 2^e * 10^p] itself when that is a whole number,
    and otherwise the integer nearest to it, the even one of two equally
    near. *)
Lemma scaled_nearest p m e :
  ((0 <= e)%Z -> scaled p m e = (Zpos m * 10 ^ Z.of_nat p * 2 ^ e)%Z)
  /\ ((e < 0)%Z ->
      (Z.abs (2 * (Zpos m * 10 ^ Z.of_nat p)
              - 2 * (scaled p m e * 2 ^ (- e))) <= 2 ^ (- e))%Z
      /\ ((2 * ((Zpos m * 10 ^ Z.of_nat p) mod 2 ^ (- e)) = 2 ^ (- e))%Z ->
          Z.even (scaled p m e) = true)).
Proof.
  unfold scaled. split; intros He.
  - apply Z.leb_le in He. now rewrite He.
  - assert (Hn : (0 <=? e)%Z = false) by (apply Z.leb_gt; lia).
    rewrite Hn.
    assert (Hden : (0 < 2 ^ (- e))%Z) by (apply Z.pow_pos_nonneg; lia).
    split.
    + now apply round_half_even_nearest.
    + intros Htie. unfold round_half_even. cbv zeta.
      rewrite Htie, Z.compare_refl.
      destruct (Z.even (Zpos m * 10 ^ Z.of_nat p / 2 ^ (- e))) eqn:Hev;
        [assumption|].
      rewrite Z.even_add, Hev. reflexivity.
Qed.

Lemma scaled_nonneg p m e : (0 <= scaled p m e)%Z.
Proof.
  unfold scaled.
  assert (Hn : (0 <= Zpos m * 10 ^ Z.of_nat p)%Z)
    by (apply Z.mul_nonneg_nonneg; [lia | apply Z.pow_nonneg; lia]).
  destruct (0 <=? e)%Z eqn:He.
  - apply Z.leb_le in He.
    apply Z.mul_nonneg_nonneg; [assumption | apply Z.pow_nonneg; lia].
  - apply Z.leb_gt in He.
    assert (Hden : (0 < 2 ^ (- e))%Z) by (apply Z.pow_pos_nonneg; lia).
    unfold round_half_even. cbv zeta.
    pose proof (Z.div_pos _ _ Hn Hden) as Hq.
    destruct (2 * ((Zpos m * 10 ^ Z.of_nat p) mod 2 ^ (- e))
              ?= 2 ^ (- e))%Z;
      [destruct (Z.even _)|..]; lia.
Qed.

Lemma read_digits_app a b acc :
  read_digits (a ++ b) acc = read_digits b (read_digits a acc).
Proof.
  revert acc. induction a as [|c a IH]; intros acc; simpl;
    [reflexivity | apply IH].
Qed.

Lemma read_digit_char d :
  (0 <= d < 10)%Z -> Z.of_nat (nat_of_ascii (digit_char d) - 48) = d.
Proof.
  intros Hd. unfold digit_char.
  rewrite <- (Z2Nat.id d) at 2 by lia.
  assert (Hn : (Z.to_nat d < 10)%nat) by lia.
  revert Hn. generalize (Z.to_nat d). intros n Hn.
  do 10 (destruct n as [|n]; [reflexivity|]). lia.
Qed.

Lemma read_frac_digits k n acc :
  read_digits (frac_digits k n) acc
  = (acc * 10 ^ Z.of_nat k + n mod 10 ^ Z.of_nat k)%Z.
Proof.
  revert n acc. induction k as [|k IH]; intros n acc.
  - cbn [frac_digits read_digits]. change (10 ^ Z.of_nat 0)%Z with 1%Z.
    rewrite Z.mod_1_r. lia.
  - cbn [frac_digits]. rewrite read_digits_app, IH.
    cbn [read_digits].
    rewrite read_digit_char by (apply Z.mod_pos_bound; lia).
    rewrite Nat2Z.inj_succ, Z.pow_succ_r by lia.
    assert (Hp : (0 < 10 ^ Z.of_nat k)%Z) by (apply Z.pow_pos_nonneg; lia).
    rewrite (Z.rem_mul_r n 10 (10 ^ Z.of_nat k)) by lia.
    lia.
Qed.

Lemma read_string_of_uint_acc d acc :
  read_digits (NilEmpty.string_of_uint d) (Zpos acc)
  = Zpos (Pos.of_uint_acc d acc).
Proof.
  revert acc. induction d; intros acc; cbn [NilEmpty.string_of_uint
    read_digits Pos.of_uint_acc]; [reflexivity|..];
    rewrite <- IHd; f_equal;
    match goal with
    | |- context [Z.of_nat ?n] =>
        let v := eval compute in (Z.of_nat n) in change (Z.of_nat n) with v
    end; lia.
Qed.

Lemma read_string_of_uint d :
  read_digits (NilEmpty.string_of_uint d) 0 = Z.of_N (Pos.of_uint d).
Proof.
  induction d; cbn [NilEmpty.string_of_uint read_digits Pos.of_uint Z.of_N];
    [reflexivity | exact IHd |..];
    rewrite <- read_string_of_uint_acc; reflexivity.
Qed.

(** The digits of a natural number read back as the number. *)
Lemma read_Z_digits n : (0 <= n)%Z -> read_digits (Z_digits n) 0 = n.
Proof.
  intros Hn. unfold Z_digits. rewrite read_string_of_uint.
  change (Pos.of_uint (N.to_uint (Z.to_N n)))
    with (N.of_uint (N.to_uint (Z.to_N n))).
  rewrite DecimalN.Unsigned.of_to. lia.
Qed.

(** X12 -- What ["%.pf"] prints for a float [m * 2^e] with at least one
    decimal: the sign, digits, a point and [p] digits, and the digits read
    as the integer [N] for which [N / 10^p] is the decimal number nearest
    to [m * 2^e] (exactly [m * 2^e * 10^p] when [e >= 0], the even [N] of
    two equally near). *)
Theorem format_f_prints_nearest p x s m e :
  Prim2SF x = S754_finite s m e ->
  exists N ip fp,
    format_f (S p) x = sign_text s ++ ip ++ "." ++ fp
    /\ ip <> "" /\ all_digits ip = true /\ all_digits fp = true
    /\ length fp = S p
    /\ read_digits (ip ++ fp) 0 = N
    /\ ((0 <= e)%Z -> N = (Zpos m * 10 ^ Z.of_nat (S p) * 2 ^ e)%Z)
    /\ ((e < 0)%Z ->
        (Z.abs (2 * (Zpos m * 10 ^ Z.of_nat (S p))
                - 2 * (N * 2 ^ (- e))) <= 2 ^ (- e))%Z
        /\ ((2 * ((Zpos m * 10 ^ Z.of_nat (S p)) mod 2 ^ (- e))
             = 2 ^ (- e))%Z -> Z.even N = true)).
Proof.
  intros Hx.
  exists (scaled (S p) m e),
         (Z_digits (scaled (S p) m e / 10 ^ Z.of_nat (S p))),
         (frac_digits (S p) (scaled (S p) m e)).
  pose proof (scaled_nonneg (S p) m e) as Hn.
  assert (Hp : (0 < 10 ^ Z.of_nat (S p))%Z) by (apply Z.pow_pos_nonneg; lia).
  split; [unfold format_f; rewrite Hx; reflexivity|].
  split; [apply Z_digits_nonempty|].
  split; [apply Z_digits_digits|].
  split; [apply all_digits_frac_digits|].
  split; [apply length_frac_digits|].
  split.
  - rewrite read_digits_app, read_Z_digits by (apply Z.div_pos; lia).
    rewrite read_frac_digits.
    pose proof (Z.div_mod (scaled (S p) m e) (10 ^ Z.of_nat (S p))
                  ltac:(lia)).
    lia.
  - split; apply (scaled_nearest (S p) m e).
Qed.

(** ** The handlers on the fixture *)

#[local] Existing Instance Fixture.externals.

(** The request [/api?ra=abc] ends in a [ValueError]. *)
Lemma API_missing_dec_unreadable_ra_example :
  @malformed Fixture.externals [("ra", "abc")] "ra"
  /\ exists e, run (@API Fixture.externals [("ra", "abc")]) = (Raise e, [])
               /\ kind e = ValueError.
Proof.
  assert (H : @malformed Fixture.externals [("ra", "abc")] "ra")
    by (exists "abc"; split; reflexivity).
  split; [exact H|].
  exact (@API_missing_dec_unreadable_ra Fixture.externals [("ra", "abc")] H eq_refl).
Defined.

(** The request [/api?ra=83.625&dec=22.0&radius=wide] ends in a
    [ValueError]. *)
Lemma API_unreadable_number_raises_example :
  exists e,
    run (@API Fixture.externals [("ra", "83.625"); ("dec", "22.0"); ("radius", "wide")])
    = (Raise e, [])
    /\ kind e = ValueError.
Proof.
  apply (@API_unreadable_number_raises Fixture.externals _ "radius").
  - discriminate.
  - discriminate.
  - simpl. auto.
  - exists "wide". split; reflexivity.
Defined.

(** The request [/api?ra=83.625&dec=22.0] searches with 5 square
    degrees. *)
Lemma API_default_radius_square_degrees_example :
  snd (run (@API Fixture.externals Fixture.crab_request))
  = [@search_call Fixture.externals (83.625, 22)%float (mkQuantity 5 (mkUnit 2 0 0)) None
       (Some (PyInt 10)) true]
  /\ unit_eqb (mkUnit 2 0 0) deg = false.
Proof.
  apply (@API_default_radius_square_degrees Fixture.externals Fixture.crab_request
           83.625%float 22%float None None).
  - exists "83.625". split; reflexivity.
  - exists "22.0". split; reflexivity.
  - reflexivity.
  - reflexivity.
  - reflexivity.
  - reflexivity.
Defined.

(** The matcher's answer to that request on the fixture. *)
Example API_default_radius_not_searched :
  fst (run (@API Fixture.externals Fixture.crab_request))
  = Raise (mkExn UnitConversionError "radius is not convertible to an angle").
Proof. reflexivity. Qed.

(** A search around the Crab pulsar, by form and by request. *)
Lemma search_results_within_radius_example :
  (exists rows cs,
      fst (run (@Search Fixture.externals (Fixture.crab_search false false)))
      = Return (render_search (Fixture.crab_search false false)
                  Fixture.survey_table
                  (Some (mkPage cs (List.length rows)
                           (link_surveys Fixture.survey_table
                              (to_html search_formatters (to_pandas rows))))))
      /\ @within Fixture.externals (83.625, 22)%float 3 rows)
  /\ (exists rows,
         fst (run (@API Fixture.externals (Fixture.crab_request ++ [("radius", "3")])%list))
         = Return (json rows)
         /\ @within Fixture.externals (83.625, 22)%float 3 rows).
Proof.
  split.
  - destruct (proj1 (@search_results_within_radius Fixture.externals)
                (Fixture.crab_search false false) (83.625, 22)%float 3%float)
      as (rows & cs & Hrun & _ & Hw); try (reflexivity).
    exists rows, cs. rewrite Hrun. split; [reflexivity | exact Hw].
  - destruct (proj1 (proj2 (@search_results_within_radius Fixture.externals))
                (Fixture.crab_request ++ [("radius", "3")])%list
                83.625%float 22%float 3%float None None (83.625, 22)%float)
      as (rows & Hrun & _ & Hw).
    + exists "83.625". split; reflexivity.
    + exists "22.0". split; reflexivity.
    + exists "3". split; reflexivity.
    + reflexivity.
    + reflexivity.
    + reflexivity.
    + exists rows. rewrite Hrun. split; [reflexivity | exact Hw].
Defined.

(** A DM of 56.75 with the tolerance left empty: the tolerance is 56.75. *)
Lemma Search_empty_dmtol_is_dm_example :
  snd (run (@Search Fixture.externals (Fixture.crab_search false false)))
  = [@search_call Fixture.externals (83.625, 22)%float (mkQuantity 3 deg) (Some 56.75%float)
       (Some (PyFloat 56.75)) false]
  /\ fst (run (@Search Fixture.externals (Fixture.crab_search true false)))
     = Return (redirect ("API", [("ra", "83.625"); ("dec", "22.0");
                                 ("radius", "3.0"); ("dm", "56.75");
                                 ("dmtol", "56.75")])).
Proof.
  split.
  - apply (proj1 (@Search_empty_dmtol_is_dm Fixture.externals
                    (Fixture.crab_search false false) (83.625, 22)%float
                    3%float eq_refl eq_refl eq_refl eq_refl));
      reflexivity.
  - apply (proj2 (@Search_empty_dmtol_is_dm Fixture.externals
                    (Fixture.crab_search true false) (83.625, 22)%float
                    3%float eq_refl eq_refl eq_refl eq_refl) eq_refl
             56.75%float eq_refl).
Defined.


(** The redirect of the "as API" button, and the rows behind it. *)
Lemma Search_api_redirect_same_search_example :
  fst (run (Search (Fixture.crab_search true false)))
  = Return (redirect ("API", [("ra", "83.625"); ("dec", "22.0");
                              ("radius", "3.0"); ("dm", "56.75");
                              ("dmtol", "56.75")]))
  /\ exists rows cs,
       fst (run (API [("ra", "83.625"); ("dec", "22.0"); ("radius", "3.0");
                      ("dm", "56.75"); ("dmtol", "56.75")]))
       = Return (json rows)
       /\ fst (run (Search (Fixture.crab_search false false)))
          = Return (render_search (Fixture.crab_search false false)
                      Fixture.survey_table
                      (Some (mkPage cs (List.length rows)
                               (link_surveys Fixture.survey_table
                                  (to_html search_formatters
                                     (to_pandas rows)))))).
Proof.
  destruct (@Search_api_redirect_same_search Fixture.externals
              (Fixture.crab_search true false)
              (Fixture.crab_search false false) (83.625, 22)%float 3%float)
    as (rows & cs & tolA & tolH & H1 & _ & H3 & H4 & _);
    try reflexivity.
  - repeat split.
  - intros x Hx. simpl in Hx.
    repeat (destruct Hx as [<-|Hx]; [reflexivity|]). contradiction.
  - split.
    + exact (f_equal fst H1).
    + exists rows, cs. split.
      * exact (f_equal fst H3).
      * exact (f_equal fst H4).
Defined.

(** Solving from a DM of 50 on the fixture, whose library answers with
    twenty parsecs per unit of DM. *)
Lemma Compute_dispatch_example :
  snd (run (Compute (Fixture.crab_compute "dm" false)))
  = [dm_to_dist_call (mkQuantity 83.625 deg) (mkQuantity 22 deg) 50 "ymw16"]
  /\ fst (run (Compute (Fixture.crab_compute "dm" false)))
     = Return (render_compute (Fixture.crab_compute "dm" false)
                 (Some ("Computing for RA,Dec 83.625 22.0 = 83.6250d,22.0000d<br>= l,b = 83.6250d,22.0000d ...",
                        "For DM = 50.0 pc/cc, find distance = 1000.0 pc"))).
Proof.
  destruct (proj1 (@Compute_dispatch Fixture.externals
                     (Fixture.crab_compute "dm" false) (83.625, 22)%float
                     50%float eq_refl (or_introl (conj eq_refl eq_refl))
                     eq_refl)
              eq_refl (mkQuantity 1000 pc) (mkQuantity 0 pc) eq_refl)
    as [Hlog Hpage].
  split; [exact Hlog | exact (Hpage eq_refl eq_refl)].
Defined.

(** The clear button on both forms. *)
Lemma clear_after_conversion_before_search_example :
  run (Compute (Fixture.crab_compute "dm" true))
  = (Return (redirect ("Compute", [])),
     [dm_to_dist_call (mkQuantity 83.625 deg) (mkQuantity 22 deg) 50 "ymw16"])
  /\ run (Search (Fixture.crab_search false true))
     = (Return (redirect ("Search", [])), []).
Proof.
  split.
  - destruct (proj1 (proj1 (@clear_after_conversion_before_search
                              Fixture.externals)
                       (Fixture.crab_compute "dm" true) (83.625, 22)%float
                       50%float eq_refl (or_introl (conj eq_refl eq_refl))
                       eq_refl eq_refl) eq_refl) as [Hlog Hret].
    specialize (Hret _ eq_refl).
    destruct (run (Compute (Fixture.crab_compute "dm" true))) as [o l].
    simpl in Hlog, Hret. now subst.
  - exact (proj2 (@clear_after_conversion_before_search Fixture.externals)
             (Fixture.crab_search false true) (83.625, 22)%float
             eq_refl eq_refl eq_refl eq_refl).
Defined.

(** The table of the search around the Crab pulsar. *)
Lemma survey_names_replaced_by_links_example :
  exists rows page,
    fst (run (Search (Fixture.crab_search false false)))
    = Return (render_search (Fixture.crab_search false false)
                Fixture.survey_table (Some page))
    /\ linked Fixture.survey_table
         (to_html search_formatters (to_pandas rows)) (html_table page).
Proof.
  destruct (@Search_html_run Fixture.externals
              (Fixture.crab_search false false) (83.625, 22)%float 3%float eq_refl eq_refl eq_refl eq_refl
              eq_refl) as [cs Hrun].
  apply (f_equal fst) in Hrun. cbn [fst] in Hrun.
  destruct (@survey_names_replaced_by_links Fixture.externals _ _ _ _ Hrun)
    as (rows & _ & Hl & _).
  - intros s [<-|[<-|[]]]; discriminate.
  - exists rows. eexists. split; [exact Hrun | exact Hl].
Defined.

Example link_surveys_on_survey_cell :
  link_surveys Fixture.survey_table "<td>GBNCC</td>"
  = "<td><a href='http://astro.phys.wvu.edu/GBNCC/'>GBNCC</a></td>".
Proof. reflexivity. Qed.

(** ** Where the statements of the spec fail *)

(** Against C7 as the spec states it: the compute page does not surface
    what the library returns beside its result; two libraries that differ only in that second value render
    the same page. *)
Lemma Compute_drops_second_value : ~ surfaces_second_value.
Proof.
  intros H.
  specialize (H 0%float 1%float (Fixture.crab_compute "dm" false)).
  assert (E : 0%float = 1%float).
  { apply H; [|reflexivity]. intros Hn. vm_compute in Hn. discriminate Hn. }
  apply (f_equal Prim2SF) in E. vm_compute in E. discriminate E.
Qed.

(** Against C8 as the spec states it: a matched row whose period is
    not-a-number shows [NaN] in the period column, which is not two-decimal
    notation. *)
Lemma unknown_period_not_two_decimals :
  ~ @two_decimals_in_every_row
      (Fixture.make Fixture.survey_table Fixture.catalog_without_period 0).
Proof.
  intros H.
  specialize (H (282.25, 0)%float 1%float None None _
                ["J1849-0001"; "282.25"; "-0.0625"; "262.5"; "NaN";
                 "7000.00"; "0.0625"; "PALFA"] eq_refl).
  destruct H as [H _]; [left; reflexivity|].
  vm_compute in H. discriminate H.
Qed.

(** Against C9 as the spec states it: with a survey named FAST and a survey
    named FAST-GPPS, the cell of a FAST-GPPS entry links to the site of
    FAST, and a pulsar name that contains FAST becomes a link as well. *)
Lemma survey_names_linked_wherever_they_occur :
  ~ @only_survey_cells_linked
      (Fixture.make Fixture.nested_surveys Fixture.nested_catalog 0).
Proof.
  intros H.
  specialize (H (285, 3)%float 1%float None None _ eq_refl).
  apply (f_equal (contains "</a>-GPPS")) in H.
  vm_compute in H. discriminate H.
Qed.

Example pulsar_name_linked :
  contains "<td><a href='https://fast.bao.ac.cn/'>FAST</a> J1900+0300</td>"
    (link_surveys Fixture.nested_surveys
       (@to_html
          (Fixture.make Fixture.nested_surveys Fixture.nested_catalog 0)
          search_formatters
          (@to_pandas
             (Fixture.make Fixture.nested_surveys Fixture.nested_catalog 0)
             [(mkEntry "FAST J1900+0300" (285, 3)%float None 0.5%float
                 4000%float "FAST", 0%float)])))
  = true.
Proof. vm_compute. reflexivity. Qed.

(** ** Further runs on the fixture *)

(** A search of one degree around the origin finds nothing. *)
Lemma Search_page_without_match_example :
  exists page,
    fst (run (Search (SearchForm.mk "0 0" (Some 1%float) None None false
                        false)))
    = Return (render_search
                (SearchForm.mk "0 0" (Some 1%float) None None false false)
                Fixture.survey_table (Some page))
    /\ nfound page = 0%nat
    /\ html_table page
       = link_surveys Fixture.survey_table (html_of_cells table_columns []).
Proof.
  destruct (@Search_html_run Fixture.externals
              (SearchForm.mk "0 0" (Some 1%float) None None false false)
              (0, 0)%float 1%float eq_refl eq_refl eq_refl eq_refl eq_refl)
    as [cs Hrun].
  apply (f_equal fst) in Hrun. cbn [fst] in Hrun.
  eexists. split; [exact Hrun|]. split; [reflexivity|].
  exact (@Search_page_without_match Fixture.externals _ _ _ _ Hrun eq_refl).
Defined.

(** A declination of 122 degrees is echoed back. *)
Lemma API_rejected_coordinate_example :
  run (API [("ra", "83.625"); ("dec", "122.0")])
  = (Return (body "Unable to parse RA,Dec = '83.625,122.0': Latitude angle(s) must be within -90 deg <= angle <= 90 deg"),
     []).
Proof.
  refine (proj1 (@API_rejected_coordinate Fixture.externals
                   [("ra", "83.625"); ("dec", "122.0")]
                   83.625%float 122%float None None None
                   (mkExn ValueError
                      "Latitude angle(s) must be within -90 deg <= angle <= 90 deg")
                   _ _ eq_refl eq_refl eq_refl eq_refl) eq_refl).
  - exists "83.625". split; reflexivity.
  - exists "122.0". split; reflexivity.
Defined.

(** An unknown parameter and a second [ra] change nothing. *)
Lemma API_reads_five_parameters_example :
  run (API [("ra", "83.625"); ("dec", "22.0"); ("radius", "3")])
  = run (API [("ra", "83.625"); ("dec", "22.0"); ("radius", "3");
              ("verbose", "1"); ("ra", "0")]).
Proof.
  apply (@API_reads_five_parameters Fixture.externals).
  intros k Hk. simpl in Hk.
  repeat (destruct Hk as [<-|Hk]; [reflexivity|]). contradiction.
Defined.

(** Solving for a period is not among the branches. *)
Lemma Compute_unknown_solve_selector_example :
  run (Compute (Fixture.crab_compute "period" false))
  = (Raise (mkExn UnboundLocalError "result_string"), []).
Proof.
  refine (@Compute_unknown_solve_selector Fixture.externals
            (Fixture.crab_compute "period" false) (83.625, 22)%float
            eq_refl (or_introl (conj eq_refl eq_refl)) _ _);
    discriminate.
Defined.

(** Ecliptic coordinates are not among the branches. *)
Lemma Compute_unknown_coordinate_selector_example :
  run (Compute (DMForm.mk "83.625 22" "ecliptic" "dm" (Some 50%float) "ymw16"
                  [("ne2001", "NE2001"); ("ymw16", "YMW16")] false))
  = (Raise (mkExn UnboundLocalError "coord"), []).
Proof.
  refine (@Compute_unknown_coordinate_selector Fixture.externals
            (DMForm.mk "83.625 22" "ecliptic" "dm" (Some 50%float) "ymw16"
               [("ne2001", "NE2001"); ("ymw16", "YMW16")] false)
            50%float eq_refl _ _ eq_refl (or_introl eq_refl));
    discriminate.
Defined.

(** A library that rejects the input, with the clear button pressed. *)
Lemma Compute_library_error_propagates_example :
  run (@Compute Fixture.rejecting (Fixture.crab_compute "dm" true))
  = (Raise (mkExn ModelError "input out of range"),
     [@dm_to_dist_call Fixture.rejecting (mkQuantity 83.625 deg)
        (mkQuantity 22 deg) 50 "ymw16"]).
Proof.
  exact (proj1 (@Compute_library_error_propagates Fixture.rejecting
                  (Fixture.crab_compute "dm" true) (83.625, 22)%float
                  50%float (mkExn ModelError "input out of range")
                  eq_refl (or_introl (conj eq_refl eq_refl)) eq_refl)
           eq_refl eq_refl).
Defined.

(** The second survey of the fixture's table. *)
Lemma last_survey_is_linked_example :
  contains (survey_link "http://www.naic.edu/~palfa/newpulsars/" "PALFA")
    (link_surveys Fixture.survey_table "<td>PALFA</td>")
  = true.
Proof.
  refine (last_survey_is_linked
            [("GBNCC", "http://astro.phys.wvu.edu/GBNCC/")] "PALFA"
            "http://www.naic.edu/~palfa/newpulsars/" "<td>PALFA</td>" _
            eq_refl).
  discriminate.
Defined.

(** The label shown when the selected model is not among the choices. *)
Example model_label_of_unknown_model :
  label_after_loop [("ne2001", "NE2001"); ("ymw16", "YMW16")] "ne2025" None
  = Some "YMW16".
Proof. reflexivity. Qed.

(** One eighth to two decimals: a tie, rounded to the even 12. *)
Lemma format_f_prints_nearest_example :
  format_f 2 0.125 = "0.12"
  /\ exists N ip fp,
       format_f 2 0.125 = sign_text false ++ ip ++ "." ++ fp
       /\ read_digits (ip ++ fp) 0 = N
       /\ (Z.abs (2 * (4503599627370496 * 10 ^ 2) - 2 * (N * 2 ^ 55))
           <= 2 ^ 55)%Z
       /\ Z.even N = true.
Proof.
  split; [reflexivity|].
  destruct (format_f_prints_nearest 1 0.125%float false 4503599627370496
              (-55) eq_refl)
    as (N & ip & fp & Hf & _ & _ & _ & _ & Hr & _ & Hnear).
  destruct (Hnear eq_refl) as [Hb Heven].
  exists N, ip, fp. repeat split; try assumption.
  apply Heven. reflexivity.
Defined.
